(** * Marina: the Moonraker remote-printer adapter and the material-usage model

  A shallow embedding of [src/models/Materials/MaterialUsage.ts]: the
  Sequelize model [MaterialUsage] with its association to [Material], and
  the class [MoonrakerRemotePrinter] (URL building, connection test, control
  commands, WebSocket session, update-status check).

  Conventions of the embedding.
  - A JavaScript string is a [string]; the operations used by the source
    ([replace], [endsWith], [slice], concatenation) never look inside a
    code unit, so the size of the alphabet plays no role.
  - A JavaScript value is a [value]; an object keeps its own properties as
    an association list in enumeration order.
  - A synchronous computation lives in the monad [M]: it threads the
    adapter instance ([this]) and the observable world, and may throw.
  - A promise is represented by the state it settles in. *)

From Stdlib Require Import Bool Arith List String Ascii ZArith Lia.
From Stdlib Require Import DecimalString Permutation.
Import ListNotations.
#[local] Set Warnings "-register-all".
Local Open Scope list_scope.
Local Open Scope string_scope.

(** ** JavaScript strings *)

Module JSString.

(** [s.startsWith(p)], used to find an occurrence of a pattern. *)
Fixpoint startsWith (s p : string) : bool :=
  match p, s with
  | EmptyString, _ => true
  | String _ _, EmptyString => false
  | String a p', String b s' => Ascii.eqb a b && startsWith s' p'
  end.

(** The characters of [s] from position [n] on. *)
Fixpoint drop (n : nat) (s : string) : string :=
  match n, s with
  | O, _ => s
  | S _, EmptyString => EmptyString
  | S n', String _ s' => drop n' s'
  end.

(** [s.replace(pat, rep)] with a string pattern: the first occurrence of
    [pat], scanning from the left, is replaced; nothing else changes.
    ([rep] holds no dollar sign in the source, so it is taken literally.) *)
Fixpoint replace (s pat rep : string) : string :=
  if startsWith s pat then rep ++ drop (String.length pat) s
  else match s with
       | EmptyString => EmptyString
       | String c s' => String c (replace s' pat rep)
       end.

(** [s.endsWith(p)] for a pattern of one character. *)
Fixpoint endsWith (s : string) (c : ascii) : bool :=
  match s with
  | EmptyString => false
  | String a EmptyString => Ascii.eqb a c
  | String _ s' => endsWith s' c
  end.

(** [s.slice(0, -1)]: all of [s] but its last character. *)
Fixpoint slice_0_m1 (s : string) : string :=
  match s with
  | EmptyString => EmptyString
  | String _ EmptyString => EmptyString
  | String a s' => String a (slice_0_m1 s')
  end.

(** Template-literal rendering of an optional boolean:
    [true], [false] or [undefined]. *)
Definition of_optional_bool (b : option bool) : string :=
  match b with
  | Some true => "true"
  | Some false => "false"
  | None => "undefined"
  end.

End JSString.

(** ** JavaScript values *)

Module JS.

(** Values as the update-status payload and the adapter's results need
    them.  Numbers are kept as integers: the source computes no arithmetic
    and the only number it creates is an array length. *)
Inductive value : Type :=
| VUndefined
| VNull
| VBool (b : bool)
| VNum (n : Z)
| VStr (s : string)
| VArr (elements : list value)
| VObj (properties : list (string * value)).

Inductive Error : Type := TypeError | SyntaxError | AbortError.

(** Outcome of synchronous code. *)
Inductive Result (A : Type) : Type :=
| Return (a : A)
| Throw (e : Error).
Arguments Return {A} a.
Arguments Throw {A} e.

(** A promise, represented by the state it settles in. *)
Inductive Promise (A : Type) : Type :=
| Fulfilled (a : A)
| Rejected (e : Error).
Arguments Fulfilled {A} a.
Arguments Rejected {A} e.

Definition is_undefined (v : value) : bool :=
  match v with VUndefined => true | _ => false end.

Definition is_null (v : value) : bool :=
  match v with VNull => true | _ => false end.

(** Decimal rendering of an array index, as property keys have it. *)
Definition index_key (i : nat) : string :=
  NilEmpty.string_of_uint (Nat.to_uint i).

Definition indexed (l : list value) : list (string * value) :=
  combine (map index_key (seq 0 (List.length l))) l.

Fixpoint characters (s : string) : list value :=
  match s with
  | EmptyString => []
  | String c s' => VStr (String c EmptyString) :: characters s'
  end.

(** The own enumerable string-keyed properties of a value, in enumeration
    order: the properties of an object, the elements of an array, the
    characters of a string; a number or a boolean has none. *)
Definition own_entries (v : value) : list (string * value) :=
  match v with
  | VObj properties => properties
  | VArr elements => indexed elements
  | VStr s => indexed (characters s)
  | _ => []
  end.

Fixpoint lookup (k : string) (l : list (string * value)) : value :=
  match l with
  | [] => VUndefined
  | (k', v) :: l' => if String.eqb k k' then v else lookup k l'
  end.

(** Property read [v.k] or [v[k]].  Reading from [undefined] or [null]
    throws; an absent property reads as [undefined]; arrays and strings
    carry [length].  No name the source reads is inherited from a
    prototype, so prototypes are left out. *)
Definition get (v : value) (k : string) : Result value :=
  match v with
  | VUndefined | VNull => Throw TypeError
  | VArr elements =>
      if String.eqb k "length" then Return (VNum (Z.of_nat (List.length elements)))
      else Return (lookup k (own_entries v))
  | VStr s =>
      if String.eqb k "length" then Return (VNum (Z.of_nat (String.length s)))
      else Return (lookup k (own_entries v))
  | _ => Return (lookup k (own_entries v))
  end.

(** [Object.keys(v)]. *)
Definition Object_keys (v : value) : Result (list string) :=
  match v with
  | VUndefined | VNull => Throw TypeError
  | _ => Return (map fst (own_entries v))
  end.

(** *** Monads: synchronous code that may throw *)

Class Monad (m : Type -> Type) : Type :=
  { ret : forall {A}, A -> m A;
    bind : forall {A B}, m A -> (A -> m B) -> m B }.

#[global] Instance Monad_Result : Monad Result :=
  {| ret := @Return;
     bind := fun A B r k =>
               match r with
               | Return a => k a
               | Throw e => Throw e
               end |}.

(** [arr.map(f)] where [f] may throw: the first exception aborts the map. *)
Fixpoint mapM {A B : Type} (f : A -> Result B) (l : list A) : Result (list B) :=
  match l with
  | [] => Return []
  | a :: l' =>
      match f a with
      | Throw e => Throw e
      | Return b =>
          match mapM f l' with
          | Throw e => Throw e
          | Return bs => Return (b :: bs)
          end
      end
  end.

(** *** Promise chaining *)

(** A callback that returns or throws settles the derived promise. *)
Definition settle {A : Type} (r : Result A) : Promise A :=
  match r with
  | Return a => Fulfilled a
  | Throw e => Rejected e
  end.

(** [p.then(f)]: [f] returns a value or a promise; a rejection of [p]
    passes through. *)
Definition then_ {A B : Type} (p : Promise A) (f : A -> Promise B) : Promise B :=
  match p with
  | Fulfilled a => f a
  | Rejected e => Rejected e
  end.

(** [p.catch(h)]. *)
Definition catch_ {A : Type} (p : Promise A) (h : Error -> Promise A) : Promise A :=
  match p with
  | Fulfilled a => Fulfilled a
  | Rejected e => h e
  end.

End JS.

Declare Scope js_scope.
Delimit Scope js_scope with js.
Notation "x <- c ;; k" := (JS.bind c (fun x => k))
(at level 61, c at next level, right associativity) : js_scope.
Notation "c ;;; k" := (JS.bind c (fun _ => k))
(at level 61, right associativity) : js_scope.

(** ** The platform: HTTP requests and WebSocket handles *)

Module Platform.
Import JS.

Inductive Method : Type := GET | POST.

(** What [fetch(url, { method })] sends; [fetch(url)] sends a GET. *)
Record Request : Type := mkRequest { method : Method; url : string }.

(** A response: its status code, and what [response.json()] settles in
    (rejected when the body is not JSON). *)
Record Response : Type := mkResponse { status : nat; json : Promise value }.

(** [response.ok]: the status is in the range 200 to 299. *)
Definition ok (r : Response) : bool :=
  Nat.leb 200 (status r) && Nat.leb (status r) 299.

Inductive ReadyState : Type := CONNECTING | OPEN | CLOSING | CLOSED.

Record Socket : Type := mkSocket { socket_url : string; readyState : ReadyState }.

(** A [WS] object is known by its position in the table of sockets. *)
Definition WS : Type := nat.

(** What an observer of the process sees: the requests sent, in order; the
    sockets created so far; the rejections that no handler received.  The
    rejections are listed by the call that let go of the promise; the
    runtime reports them as the requests settle, in an order the program
    does not fix, so the order of that list carries no meaning across
    calls. *)
Record World : Type := mkWorld
  { requests : list Request;
    sockets : list Socket;
    unhandledRejections : list Error }.

Definition log_request (r : Request) (w : World) : World :=
  {| requests := requests w ++ [r];
     sockets := sockets w;
     unhandledRejections := unhandledRejections w |}.

Definition log_unhandled (e : Error) (w : World) : World :=
  {| requests := requests w;
     sockets := sockets w;
     unhandledRejections := unhandledRejections w ++ [e] |}.

Definition add_socket (s : Socket) (w : World) : World :=
  {| requests := requests w;
     sockets := sockets w ++ [s];
     unhandledRejections := unhandledRejections w |}.

End Platform.

(** ** ./RemoteAPI: the shape guards *)

Module RemoteAPI.
Import JS.

(** Modelled from the spec: the guard [isUpdateRepositoryStatus] of
    [./RemoteAPI], which is imported by the source and not part of it.
    The spec (4.6) gives its meaning: the raw entry has a [remote_version]
    and a [commits_behind] sequence. *)
Definition isUpdateRepositoryStatus (status : value) : bool :=
  match status with
  | VObj properties =>
      negb (is_undefined (lookup "remote_version" properties))
      && match lookup "commits_behind" properties with
         | VArr _ => true
         | _ => false
         end
  | _ => false
  end.

(** Modelled from the spec: the guard [isSystemUpdateStatus] of
    [./RemoteAPI], which is imported by the source and not part of it.
    The spec (4.6) gives its meaning: the raw entry has a [package_list]. *)
Definition isSystemUpdateStatus (status : value) : bool :=
  match status with
  | VObj properties => negb (is_undefined (lookup "package_list" properties))
  | _ => false
  end.

End RemoteAPI.

(** ** class MoonrakerRemotePrinter *)

Module Moonraker.
Import JS Platform RemoteAPI.
Local Open Scope js_scope.

Inductive ConnectionType : Type := moonraker | octoprint | none.

Record MoonrakerRemotePrinter : Type := mkPrinter
  { connectionType : ConnectionType;
    connectionAddress : string;
    connectionAPIKey : option string;
    socket : option WS }.

(** [constructor(address, apiKey?)], with the field initialisers. *)
Definition constructor (address : string) (apiKey : option string)
  : MoonrakerRemotePrinter :=
  {| connectionType := moonraker;
     connectionAddress := address;
     connectionAPIKey := apiKey;
     socket := None |}.

(** [buildConnectionURL(websocket = false)]. *)
Definition buildConnectionURL (this : MoonrakerRemotePrinter) (websocket : bool)
  : string :=
  let url := connectionAddress this in
  let url := if websocket then JSString.replace url "http" "ws" else url in
  let url := if JSString.endsWith url "/" then JSString.slice_0_m1 url else url in
  url.

(** *** Methods as state transformers *)

Record State : Type := mkState { this : MoonrakerRemotePrinter; world : World }.

Definition M (A : Type) : Type := State -> Result A * State.

#[global] Instance Monad_M : Monad M :=
  {| ret := fun A a st => (Return a, st);
     bind := fun A B c k st =>
               match c st with
               | (Return a, st') => k a st'
               | (Throw e, st') => (Throw e, st')
               end |}.

Definition gets {A : Type} (f : MoonrakerRemotePrinter -> A) : M A :=
  fun st => (Return (f (this st)), st).

(** [this.socket = s]. *)
Definition set_socket (s : option WS) : M unit :=
  fun st =>
    (Return tt,
     {| this := {| connectionType := connectionType (this st);
                   connectionAddress := connectionAddress (this st);
                   connectionAPIKey := connectionAPIKey (this st);
                   socket := s |};
        world := world st |}).

(** [await p]. *)
Definition await {A : Type} (p : Promise A) : M A :=
  fun st =>
    match p with
    | Fulfilled a => (Return a, st)
    | Rejected e => (Throw e, st)
    end.

(** [try { body } catch (error) { handler }]. *)
Definition try_catch {A : Type} (body : M A) (handler : Error -> M A) : M A :=
  fun st =>
    match body st with
    | (Throw e, st') => handler e st'
    | r => r
    end.

(** The body of an [async] function: what it returns fulfils the promise
    handed to the caller, what it throws rejects it. *)
Definition async {A : Type} (body : M A) : M (Promise A) :=
  fun st =>
    match body st with
    | (Return a, st') => (Return (Fulfilled a), st')
    | (Throw e, st') => (Return (Rejected e), st')
    end.

(** An expression statement whose value is a promise: nothing keeps the
    promise and no handler is attached, so a rejection of it is reported
    by the runtime as unhandled.  The rejection is entered with the call;
    when the runtime reports it, relative to those of other calls, is not
    modelled. *)
Definition discard {A : Type} (p : Promise A) : M unit :=
  fun st =>
    match p with
    | Fulfilled _ => (Return tt, st)
    | Rejected e =>
        (Return tt, {| this := this st; world := log_unhandled e (world st) |})
    end.

Section WithNetwork.

(** The backend and the network between: how the promise of each
    request settles. *)
Variable network : Request -> Promise Response.

(** The [ws] library, which is not part of the source: whether its
    constructor takes a URL.  It throws a [SyntaxError] for a URL it
    refuses (one that does not parse, has a scheme it does not know, or
    holds a fragment). *)
Variable accepts : string -> bool.

(** [new WS(url)]: a socket is created, connecting to [url], or the
    constructor throws. *)
Definition new_WS (url : string) : M WS :=
  fun st =>
    if accepts url then
      (Return (List.length (sockets (world st))),
       {| this := this st;
          world := add_socket {| socket_url := url; readyState := CONNECTING |}
                     (world st) |})
    else (Throw SyntaxError, st).

(** [fetch(url, { method })]. *)
Definition fetch (url : string) (method : Method) : M (Promise Response) :=
  fun st =>
    let request := {| method := method; url := url |} in
    (Return (network request),
     {| this := this st; world := log_request request (world st) |}).

Definition openSocketConnection : M (Promise WS) :=
  async (
    base <- gets (fun this => buildConnectionURL this true) ;;
    socket <- new_WS (base ++ "/websocket") ;;
    set_socket (Some socket) ;;;
    ret socket).

(** The [return] inside [try] is [Some]; falling out of the [try]
    statement is [None]. *)
Definition testConnection : M (Promise bool) :=
  async (
    url <- gets (fun this => buildConnectionURL this false) ;;
    returned <-
      try_catch
        (p <- fetch url GET ;;
         response <- await p ;;
         if ok response then ret (Some true) else ret None)
        (fun error => ret (Some false)) ;;
    match returned with
    | Some b => ret b
    | None => ret false
    end).

Definition emergencyStop : M unit :=
  base <- gets (fun this => buildConnectionURL this false) ;;
  p <- fetch (base ++ "/printer/emergency_stop") POST ;;
  discard p.

Definition restart : M unit :=
  base <- gets (fun this => buildConnectionURL this false) ;;
  p <- fetch (base ++ "/printer/restart") POST ;;
  discard p.

Definition firmwareRestart : M unit :=
  base <- gets (fun this => buildConnectionURL this false) ;;
  p <- fetch (base ++ "/printer/firmware_restart") POST ;;
  discard p.

(** The callback of [modules.map]. *)
Definition classify (versionInfo : value) (module : string) : Result value :=
  entry <- get versionInfo module ;;
  if negb (is_undefined entry) then
    moduleVersion <- get versionInfo module ;;
    if is_undefined moduleVersion then ret VNull
    else if isUpdateRepositoryStatus moduleVersion then
      version <- get moduleVersion "version" ;;
      remote_version <- get moduleVersion "remote_version" ;;
      commits_behind <- get moduleVersion "commits_behind" ;;
      length <- get commits_behind "length" ;;
      ret (VObj [("local", version);
                 ("remote", remote_version);
                 ("commits_behind", length)])
    else if isSystemUpdateStatus moduleVersion then
      package_list <- get moduleVersion "package_list" ;;
      ret (VObj [("packages", package_list)])
    else
      (* Type is Boolean *)
      ret VNull
  else ret VNull.

(** The second [.then] callback. *)
Definition moduleInfo (updateStatus : value) : Result value :=
  result <- get updateStatus "result" ;;
  versionInfo <- get result "version_info" ;;
  modules <- Object_keys versionInfo ;;
  mapped <- mapM (classify versionInfo) modules ;;
  ret (VArr (filter (fun module => negb (is_null module)) mapped)).

Definition checkForUpdates (refresh : option bool) : M (Promise value) :=
  base <- gets (fun this => buildConnectionURL this false) ;;
  p <- fetch (base ++ "/machine/update / status ? refresh = "
                   ++ JSString.of_optional_bool refresh) POST ;;
  ret (catch_
         (then_
            (then_ p (fun response =>
                        if negb (ok response) then Fulfilled VNull
                        else json response))
            (fun updateStatus => settle (moduleInfo updateStatus)))
         (fun err => Fulfilled VNull)).

End WithNetwork.

End Moonraker.

(** ** class MaterialUsage, and the tables behind it *)

Module Materials.

Inductive DataType : Type := INTEGER | FLOAT | DATE.

Record Reference : Type := mkReference { model : string; key : string }.

Record ColumnOptions : Type := mkColumn
  { type : DataType;
    primaryKey : bool;
    autoIncrement : bool;
    allowNull : bool;
    references : option Reference;
    defaultValueNow : bool }.

Record ModelOptions : Type := mkModelOptions
  { modelName : string; tableName : string }.

(** [MaterialUsage.initialize]: the attributes and options given to [init]. *)
Definition initialize : list (string * ColumnOptions) * ModelOptions :=
  ([("materialUsageId",
     {| type := INTEGER; primaryKey := true; autoIncrement := true;
        allowNull := false; references := None; defaultValueNow := false |});
    ("materialId",
     {| type := INTEGER; primaryKey := false; autoIncrement := false;
        allowNull := false;
        references := Some {| model := "Material"; key := "materialId" |};
        defaultValueNow := false |});
    ("weightUsed",
     {| type := FLOAT; primaryKey := false; autoIncrement := false;
        allowNull := false; references := None; defaultValueNow := false |});
    ("createdAt",
     {| type := DATE; primaryKey := false; autoIncrement := false;
        allowNull := false; references := None; defaultValueNow := true |});
    ("updatedAt",
     {| type := DATE; primaryKey := false; autoIncrement := false;
        allowNull := false; references := None; defaultValueNow := true |})],
   {| modelName := "MaterialUsage"; tableName := "material_usage" |}).

Inductive ReferentialAction : Type :=
| CASCADE | RESTRICT | SET_NULL | SET_DEFAULT | NO_ACTION.

Record BelongsToOptions : Type := mkBelongsTo
  { target : string;
    foreignKey : string;
    targetKey : string;
    onDelete : ReferentialAction;
    onUpdate : ReferentialAction;
    as_ : string }.

(** [MaterialUsage.associate]: the options given to [belongsTo]. *)
Definition associate : BelongsToOptions :=
  {| target := "Material";
     foreignKey := "materialId";
     targetKey := "materialId";
     onDelete := RESTRICT;
     onUpdate := CASCADE;
     as_ := "material" |}.

Inductive DatabaseError : Type :=
| ForeignKeyConstraintError
| UniqueConstraintError.

Inductive Outcome : Type := Done | Refused (e : DatabaseError).

Section Tables.

(** The columns of [Material] other than its key, and the
    representations of FLOAT and DATE cells: none is inspected here. *)
Variables MaterialAttributes Float Date : Type.

Record Material : Type := mkMaterial
  { material_materialId : Z;
    material_attributes : MaterialAttributes }.

Record MaterialUsage : Type := mkMaterialUsage
  { materialUsageId : Z;
    materialId : Z;
    weightUsed : Float;
    createdAt : Date;
    updatedAt : Date }.

Record Database : Type := mkDatabase
  { material : list Material;
    material_usage : list MaterialUsage }.

Definition references_material (id : Z) (u : MaterialUsage) : bool :=
  Z.eqb (materialId u) id.

Definition is_material (id : Z) (m : Material) : bool :=
  Z.eqb (material_materialId m) id.

Definition set_materialId (id : Z) (u : MaterialUsage) : MaterialUsage :=
  {| materialUsageId := materialUsageId u;
     materialId := id;
     weightUsed := weightUsed u;
     createdAt := createdAt u;
     updatedAt := updatedAt u |}.

Definition set_material_materialId (id : Z) (m : Material) : Material :=
  {| material_materialId := id;
     material_attributes := material_attributes m |}.

(** Modelled from the spec: deleting the [Material] row with identifier
    [id].  The operation belongs to [./Material] and to the database,
    neither of which is part of the source; the spec (6) describes it as
    governed by the referential actions of the association.  Each action
    has its SQL meaning (deleting a row that does not exist changes
    nothing); the referencing column is declared
    [allowNull: false] with no default, so SET NULL and SET DEFAULT
    cannot be carried out while a row references [id]. *)
Definition destroy_Material (a : BelongsToOptions) (id : Z) (db : Database)
  : Outcome * Database :=
  if negb (existsb (is_material id) (material db)) then (Done, db)
  else if existsb (references_material id) (material_usage db) then
    match onDelete a with
    | CASCADE =>
        (Done,
         {| material := filter (fun m => negb (is_material id m)) (material db);
            material_usage :=
              filter (fun u => negb (references_material id u))
                (material_usage db) |})
    | RESTRICT | NO_ACTION | SET_NULL | SET_DEFAULT =>
        (Refused ForeignKeyConstraintError, db)
    end
  else
    (Done,
     {| material := filter (fun m => negb (is_material id m)) (material db);
        material_usage := material_usage db |}).

(** Modelled from the spec: changing the identifier of the [Material]
    row [id] to [id'].  As for [destroy_Material], the operation is not
    part of the source; the identifier is a key, so a value already in
    use is refused. *)
Definition update_Material_id (a : BelongsToOptions) (id id' : Z)
    (db : Database) : Outcome * Database :=
  if Z.eqb id id' then (Done, db)
  else if negb (existsb (is_material id) (material db)) then (Done, db)
  else if existsb (is_material id') (material db) then
    (Refused UniqueConstraintError, db)
  else
    let renamed :=
      map (fun m => if is_material id m then set_material_materialId id' m else m)
        (material db) in
    if existsb (references_material id) (material_usage db) then
      match onUpdate a with
      | CASCADE =>
          (Done,
           {| material := renamed;
              material_usage :=
                map (fun u => if references_material id u
                              then set_materialId id' u else u)
                  (material_usage db) |})
      | RESTRICT | NO_ACTION | SET_NULL | SET_DEFAULT =>
          (Refused ForeignKeyConstraintError, db)
      end
    else
      (Done, {| material := renamed; material_usage := material_usage db |}).

End Tables.

Arguments material {MaterialAttributes Float Date} d.
Arguments material_usage {MaterialAttributes Float Date} d.
Arguments materialId {Float Date} m.
Arguments destroy_Material {MaterialAttributes Float Date} a id db.
Arguments update_Material_id {MaterialAttributes Float Date} a id id' db.
Arguments references_material {Float Date} id u.
Arguments set_materialId {Float Date} id u.

Arguments is_material {MaterialAttributes} id m.
Arguments set_material_materialId {MaterialAttributes} id m.
Arguments material_materialId {MaterialAttributes} m.

(** Two spools and three usage logs, two of them of the first spool. *)
Definition example_database : Database string Z Z :=
  {| material :=
       [ {| material_materialId := 1; material_attributes := "PLA" |};
         {| material_materialId := 2; material_attributes := "PETG" |} ];
     material_usage :=
       [ {| materialUsageId := 1; materialId := 1; weightUsed := 12;
            createdAt := 0; updatedAt := 0 |};
         {| materialUsageId := 2; materialId := 2; weightUsed := 30;
            createdAt := 1; updatedAt := 1 |};
         {| materialUsageId := 3; materialId := 1; weightUsed := 7;
            createdAt := 2; updatedAt := 2 |} ] |}%Z.

End Materials.

(** ** The vocabulary of the specification *)

Module Spec.
Import JS Platform RemoteAPI Moonraker.

(** The Connection URL Builder on a configured address. *)
Definition build (A : string) (ws : bool) : string :=
  buildConnectionURL (constructor A None) ws.

Definition is_boolean (v : value) : bool :=
  match v with VBool _ => true | _ => false end.

Definition nullish (v : value) : bool :=
  is_undefined v || is_null v.

(** The two recognized variants of an entry of the result. *)
Definition is_RepositoryModule (entry : value) : bool :=
  match entry with
  | VObj [(local, _); (remote, _); (count, VNum n)] =>
      String.eqb local "local" && String.eqb remote "remote"
      && String.eqb count "commits_behind" && Z.leb 0 n
  | _ => false
  end.

Definition is_SystemPackageModule (entry : value) : bool :=
  match entry with
  | VObj [(packages, _)] => String.eqb packages "packages"
  | _ => false
  end.

Definition recognized (entry : value) : bool :=
  is_RepositoryModule entry || is_SystemPackageModule entry.

(** The number of elements of the raw [commits_behind] sequence. *)
Definition commits_count (raw : value) : Z :=
  match lookup "commits_behind" (own_entries raw) with
  | VArr commits => Z.of_nat (List.length commits)
  | _ => 0%Z
  end.

(** Classification of one raw entry as the spec words it (4.6, step 3):
    undefined is dropped; a RepositoryModule shape gives the two versions
    and the count of commits; a SystemPackageModule shape gives the
    package list; anything else is dropped.  The name of the count field
    is a parameter. *)
Definition normalize (count_field : string) (raw : value) : option value :=
  if is_undefined raw then None
  else if isUpdateRepositoryStatus raw then
    Some (VObj [("local", lookup "version" (own_entries raw));
                ("remote", lookup "remote_version" (own_entries raw));
                (count_field, VNum (commits_count raw))])
  else if isSystemUpdateStatus raw then
    Some (VObj [("packages", lookup "package_list" (own_entries raw))])
  else None.

Definition emitted (count_field : string) (raw : value) : list value :=
  match normalize count_field raw with
  | Some entry => [entry]
  | None => []
  end.

(** The sequence the spec expects for a [version_info] mapping: the
    entries emitted for its keys, in enumeration order. *)
Definition normalized (count_field : string) (mapping : list (string * value))
  : list value :=
  flat_map (fun module => emitted count_field (lookup module mapping))
    (map fst mapping).

(** What parsing the body as an update-status envelope yields: the value
    of [result.version_info], when the body is JSON and has one. *)
Definition parsed_version_info (body : Promise value) : option value :=
  match body with
  | Rejected _ => None
  | Fulfilled updateStatus =>
      match get updateStatus "result" with
      | Throw _ => None
      | Return result =>
          match get result "version_info" with
          | Throw _ => None
          | Return versionInfo =>
              if nullish versionInfo then None else Some versionInfo
          end
      end
  end.

(** The raw value a key of [version_info] is bound to. *)
Definition raw_entry (versionInfo : value) (module : string) : value :=
  match get versionInfo module with
  | Return raw => raw
  | Throw _ => VUndefined
  end.

(** The entries emitted for the keys of any [version_info] value. *)
Definition sequence (count_field : string) (versionInfo : value) : list value :=
  flat_map (fun module => emitted count_field (raw_entry versionInfo module))
    (map fst (own_entries versionInfo)).

(** A successful response and the [version_info] it carries. *)
Definition version_info_of (response : Response) : option value :=
  if ok response then parsed_version_info (json response) else None.

(** The result the spec gives an update check whose request settles as
    [p]: the sequence of entries on success, [null] otherwise. *)
Definition expected_result (p : Promise Response) : value :=
  match p with
  | Rejected _ => VNull
  | Fulfilled response =>
      match version_info_of response with
      | Some versionInfo => VArr (sequence "commits_behind" versionInfo)
      | None => VNull
      end
  end.

(** The three causes of failure of an update check. *)
Definition transport_failed (p : Promise Response) : bool :=
  match p with Rejected _ => true | Fulfilled _ => false end.

Definition unsuccessful (p : Promise Response) : bool :=
  match p with Fulfilled response => negb (ok response) | Rejected _ => false end.

Definition parse_failed (p : Promise Response) : bool :=
  match p with
  | Fulfilled response =>
      match parsed_version_info (json response) with
      | None => true
      | Some _ => false
      end
  | Rejected _ => false
  end.

(** A call of a control command from state [st] surfaces no failure: it
    returns normally and leaves no rejection unhandled. *)
Definition surfaces_no_failure (st : State) (run : Result unit * State) : Prop :=
  fst run = Return tt /\
  unhandledRejections (world (snd run)) = unhandledRejections (world st).

(** The request a control command is specified to issue. *)
Definition command_request (this : MoonrakerRemotePrinter) (path : string)
  : Request :=
  {| method := POST; url := buildConnectionURL this false ++ path |}.

(** The request of an update check, as the source writes its URL. *)
Definition update_request (this : MoonrakerRemotePrinter) (refresh : option bool)
  : Request :=
  {| method := POST;
     url := buildConnectionURL this false
            ++ "/machine/update / status ? refresh = "
            ++ JSString.of_optional_bool refresh |}.

(** What the promise chain of [checkForUpdates] makes of the promise of
    the request. *)
Definition update_chain (p : Promise Response) : Promise value :=
  catch_
    (then_
       (then_ p (fun response =>
                   if negb (ok response) then Fulfilled VNull else json response))
       (fun updateStatus => settle (moduleInfo updateStatus)))
    (fun err => Fulfilled VNull).

(** The state a control command leaves: its request is sent, and the
    promise of the request is let go. *)
Definition after_command (network : Request -> Promise Response)
    (request : Request) (st : State) : State :=
  {| this := this st;
     world :=
       match network request with
       | Fulfilled _ => log_request request (world st)
       | Rejected e => log_unhandled e (log_request request (world st))
       end |}.

(** What a control command does with [path], seen from its caller and
    from the world: it returns normally, leaves the adapter as it was, sends
    one POST, and a rejection of that request ends up unhandled. *)
Definition fire_and_forget (network : Request -> Promise Response)
    (st : State) (path : string) (run : Result unit * State) : Prop :=
  fst run = Return tt /\
  this (snd run) = this st /\
  requests (world (snd run))
  = (requests (world st) ++ [command_request (this st) path])%list /\
  sockets (world (snd run)) = sockets (world st) /\
  unhandledRejections (world (snd run))
  = (unhandledRejections (world st)
     ++ match network (command_request (this st) path) with
        | Fulfilled _ => []
        | Rejected e => [e]
        end)%list.

(** The update-status path of the spec's table of endpoints. *)
Definition update_status_path (refresh : option bool) : string :=
  "/machine/update_status?refresh=" ++ JSString.of_optional_bool refresh.

(** A printer and a world to run examples in. *)
Definition mainsail : MoonrakerRemotePrinter :=
  constructor "http://mainsail.local/" None.

Definition fresh : State :=
  {| this := mainsail;
     world := {| requests := []; sockets := []; unhandledRejections := [] |} |}.

(** The network is down: every request is rejected. *)
Definition down : Request -> Promise Response :=
  fun _ => Rejected TypeError.

(** The backend answers every request with status 200 and the given body. *)
Definition answering (body : value) : Request -> Promise Response :=
  fun _ => Fulfilled {| status := 200; json := Fulfilled body |}.

Definition envelope (mapping : list (string * value)) : value :=
  VObj [("result", VObj [("version_info", VObj mapping)])].

(** The raw mapping of the spec's scenario (8, item 5). *)
Definition scenario : list (string * value) :=
  [("klipper",
    VObj [("version", VStr "v1");
          ("remote_version", VStr "v2");
          ("commits_behind", VArr [VNum 1; VNum 2; VNum 3])]);
   ("moonraker", VObj [("package_list", VArr [VStr "a"; VStr "b"])]);
   ("system", VBool true)].

(** The result the spec expects for its scenario (8, item 5). *)
Definition scenario_expected : list value :=
  [VObj [("local", VStr "v1"); ("remote", VStr "v2"); ("commitsBehind", VNum 3)];
   VObj [("packages", VArr [VStr "a"; VStr "b"])]].

(** The result the source gives for it. *)
Definition scenario_result : list value :=
  [VObj [("local", VStr "v1"); ("remote", VStr "v2"); ("commits_behind", VNum 3)];
   VObj [("packages", VArr [VStr "a"; VStr "b"])]].

(** A key of the mapping has an entry in the result. *)
Definition kept (mapping : list (string * value)) (module : string) : bool :=
  match normalize "commits_behind" (lookup module mapping) with
  | Some _ => true
  | None => false
  end.

End Spec.

(** ** Observations on runs of the methods *)

Module Observe.
Import JS Platform RemoteAPI Moonraker.
Local Open Scope js_scope.

(** [s.includes(pat)]: [pat] occurs somewhere in [s]. *)
Fixpoint includes (s pat : string) : bool :=
  JSString.startsWith s pat
  || match s with
     | EmptyString => false
     | String _ s' => includes s' pat
     end.

(** What a run shows to the caller and to the world, the adapter's own
    fields left aside. *)
Definition observation {A : Type} (run : Result A * State) : Result A * World :=
  (fst run, world (snd run)).

(** The adapter [this] in another world. *)
Definition in_world (this : MoonrakerRemotePrinter) (w : World) : State :=
  {| this := this; world := w |}.

(** The session the adapter holds, if any, is a socket of the table, made
    for the WebSocket URL of the adapter's address. *)
Definition session_ok (st : State) : bool :=
  match socket (this st) with
  | None => true
  | Some handle =>
      match nth_error (sockets (world st)) handle with
      | Some s =>
          String.eqb (socket_url s)
            (buildConnectionURL (this st) true ++ "/websocket")
      | None => false
      end
  end.

(** The check of the [ws] constructor as far as the examples need it: the
    URL has one of the schemes the constructor knows and no fragment. *)
Definition ws_accepts (url : string) : bool :=
  (JSString.startsWith url "ws://" || JSString.startsWith url "wss://"
   || JSString.startsWith url "http://" || JSString.startsWith url "https://")
  && negb (includes url "#").

(** An adapter for an address whose scheme the [ws] constructor refuses. *)
Definition ftp_printer : State :=
  in_world (constructor "ftp://printer.local" None)
    {| requests := []; sockets := []; unhandledRejections := [] |}.

(** Two calls, one after the other, in the caller's synchronous code. *)
Definition then_call {A B : Type} (first : M A) (second : M B) : M B :=
  first ;;; second.

(** The value of [result.version_info] has no keys: a number or a boolean. *)
Definition keyless (versionInfo : value) : bool :=
  match versionInfo with
  | VNum _ | VBool _ => true
  | _ => false
  end.

End Observe.

(** * Properties *)

Import JS Platform RemoteAPI Moonraker.

(** ** Strings *)

Section StringFacts.
Import JSString.

Lemma replace_unfold (s pat rep : string) :
  replace s pat rep =
  if startsWith s pat then rep ++ drop (String.length pat) s
  else match s with
       | EmptyString => EmptyString
       | String c s' => String c (replace s' pat rep)
       end.
Proof. destruct s; reflexivity. Qed.

Lemma startsWith_app (p s : string) : startsWith (p ++ s) p = true.
Proof.
  induction p as [|a p IH]; simpl.
  - destruct s; reflexivity.
  - now rewrite Ascii.eqb_refl, IH.
Qed.

Lemma drop_app (p s : string) : drop (String.length p) (p ++ s) = s.
Proof. induction p as [|a p IH]; simpl; [reflexivity | exact IH]. Qed.

(** An occurrence at the very start is the one that gets replaced, and
    the rest of the string is kept as it is. *)
Lemma replace_at_start (p r s : string) : replace (p ++ s) p r = r ++ s.
Proof. now rewrite replace_unfold, startsWith_app, drop_app. Qed.

Lemma snoc_not_empty (s : string) (d : ascii) :
  s ++ String d EmptyString <> EmptyString.
Proof. destruct s; discriminate. Qed.

Lemma endsWith_cons (a : ascii) (s : string) (c : ascii) :
  s <> EmptyString -> endsWith (String a s) c = endsWith s c.
Proof. destruct s; [congruence | reflexivity]. Qed.

Lemma slice_cons (a : ascii) (s : string) :
  s <> EmptyString -> slice_0_m1 (String a s) = String a (slice_0_m1 s).
Proof. destruct s; [congruence | reflexivity]. Qed.

Lemma endsWith_snoc (s : string) (c d : ascii) :
  endsWith (s ++ String d EmptyString) c = Ascii.eqb d c.
Proof.
  induction s as [|a s IH]; [reflexivity|].
  change (String a s ++ String d "") with (String a (s ++ String d "")).
  rewrite endsWith_cons by apply snoc_not_empty. exact IH.
Qed.

Lemma slice_snoc (s : string) (d : ascii) :
  slice_0_m1 (s ++ String d EmptyString) = s.
Proof.
  induction s as [|a s IH]; [reflexivity|].
  change (String a s ++ String d "") with (String a (s ++ String d "")).
  rewrite slice_cons by apply snoc_not_empty. now rewrite IH.
Qed.

(** Putting characters in front does not create a trailing slash. *)
Lemma endsWith_ws (s : string) :
  endsWith s "/" = false -> endsWith ("ws" ++ s) "/" = false.
Proof. destruct s as [|a s]; intro H; [reflexivity | exact H]. Qed.

Lemma append_assoc (s t u : string) : (s ++ t) ++ u = s ++ (t ++ u).
Proof. induction s as [|a s IH]; simpl; [reflexivity | now rewrite IH]. Qed.

End StringFacts.

(** ** The Connection URL Builder *)

(** The builder reads nothing of the adapter but its address. *)
Lemma buildConnectionURL_address (this : MoonrakerRemotePrinter) (websocket : bool) :
buildConnectionURL this websocket = Spec.build (connectionAddress this) websocket.
Proof. reflexivity. Qed.

Lemma build_rest (A : string) :
JSString.endsWith A "/" = false -> Spec.build A false = A.
Proof. intro H. unfold Spec.build, buildConnectionURL. cbn. now rewrite H. Qed.

Lemma build_rest_slash (A : string) : Spec.build (A ++ "/") false = A.
Proof.
unfold Spec.build, buildConnectionURL. cbn.
now rewrite endsWith_snoc, Ascii.eqb_refl, slice_snoc.
Qed.

Lemma build_websocket (A : string) :
Spec.build ("http" ++ A) true = Spec.build ("ws" ++ A) false.
Proof.
unfold Spec.build, buildConnectionURL.
cbv [connectionAddress constructor].
now rewrite replace_at_start.
Qed.

(** C2. For an address [A] with no trailing slash, the builder returns [A]
  for [A] and for [A] followed by a slash, and strips one slash only; with
  the WebSocket flag, a leading [http] becomes [ws] and the rest of the
  address, whatever it holds, is kept: [http://x] gives [ws://x] and
  [https://x] gives [wss://x]. *)
Theorem buildConnectionURL_spec (A : string)
  (H : JSString.endsWith A "/" = false) :
Spec.build A false = A /\
Spec.build (A ++ "/") false = A /\
Spec.build (A ++ "//") false = A ++ "/" /\
Spec.build ("http" ++ A) true = "ws" ++ A /\
Spec.build ("http" ++ A ++ "/") true = "ws" ++ A /\
Spec.build "http://x" true = "ws://x" /\
Spec.build "https://x" true = "wss://x".
Proof.
repeat split.
- now apply build_rest.
- apply build_rest_slash.
- change (A ++ "//") with (A ++ "/" ++ "/").
  rewrite <- append_assoc. apply build_rest_slash.
- rewrite build_websocket. now apply build_rest, endsWith_ws.
- rewrite build_websocket, <- append_assoc. apply build_rest_slash.
Qed.

Lemma buildConnectionURL_spec_witness :
JSString.endsWith "s://my-http-printer.local:7125" "/" = false /\
Spec.build "https://my-http-printer.local:7125" true
= "wss://my-http-printer.local:7125".
Proof.
split; [reflexivity|].
apply (buildConnectionURL_spec "s://my-http-printer.local:7125"); reflexivity.
Defined.

(** The replacement is not anchored: in an address that does not start with
  [http], the first [http] further on is the one rewritten. *)
Example buildConnectionURL_unanchored :
Spec.build "HTTP://my-http-printer.local" true = "HTTP://my-ws-printer.local".
Proof. reflexivity. Qed.

(** ** Running the methods *)

Section Runs.

Variable network : Request -> Promise Response.

Lemma checkForUpdates_run (refresh : option bool) (st : State) :
  checkForUpdates network refresh st =
  (Return (Spec.update_chain (network (Spec.update_request (this st) refresh))),
   {| this := this st;
      world := log_request (Spec.update_request (this st) refresh) (world st) |}).
Proof. reflexivity. Qed.

Lemma testConnection_run (st : State) :
  let request := {| method := GET; url := buildConnectionURL (this st) false |} in
  testConnection network st =
  (Return (Fulfilled match network request with
                     | Fulfilled response => ok response
                     | Rejected _ => false
                     end),
   {| this := this st; world := log_request request (world st) |}).
Proof.
  unfold testConnection, async, try_catch, fetch, await; cbn.
  destruct (network _) as [response|e]; cbn; [|reflexivity].
  destruct (ok response); reflexivity.
Qed.

(** The three control commands run alike: send, then let go. *)
Local Ltac run_command command :=
  unfold command, Spec.after_command, fetch, discard; cbn;
  destruct (network _); reflexivity.

Lemma emergencyStop_run (st : State) :
  emergencyStop network st =
  (Return tt,
   Spec.after_command network
     (Spec.command_request (this st) "/printer/emergency_stop") st).
Proof. run_command emergencyStop. Qed.

Lemma restart_run (st : State) :
  restart network st =
  (Return tt,
   Spec.after_command network
     (Spec.command_request (this st) "/printer/restart") st).
Proof. run_command restart. Qed.

Lemma firmwareRestart_run (st : State) :
  firmwareRestart network st =
  (Return tt,
   Spec.after_command network
     (Spec.command_request (this st) "/printer/firmware_restart") st).
Proof. run_command firmwareRestart. Qed.

(** Opening the socket connection: the constructor takes the URL, or it
    throws and nothing changes. *)
Lemma openSocketConnection_run (accepts : string -> bool) (st : State) :
  let url := buildConnectionURL (this st) true ++ "/websocket" in
  let handle := List.length (sockets (world st)) in
  openSocketConnection accepts st =
  if accepts url then
    (Return (Fulfilled handle),
     {| this := {| connectionType := connectionType (this st);
                   connectionAddress := connectionAddress (this st);
                   connectionAPIKey := connectionAPIKey (this st);
                   socket := Some handle |};
        world := add_socket {| socket_url := url; readyState := CONNECTING |}
                   (world st) |})
  else (Return (Rejected SyntaxError), st).
Proof.
  unfold openSocketConnection, async, new_WS, set_socket, gets. cbn.
  destruct (accepts _); reflexivity.
Qed.

Lemma after_command_requests (request : Request) (st : State) :
  requests (world (Spec.after_command network request st))
  = (requests (world st) ++ [request])%list.
Proof. unfold Spec.after_command; cbn. destruct (network request); reflexivity. Qed.

Lemma after_command_unhandled (request : Request) (st : State) :
  unhandledRejections (world (Spec.after_command network request st)) =
  (unhandledRejections (world st)
   ++ match network request with Fulfilled _ => [] | Rejected e => [e] end)%list.
Proof.
  unfold Spec.after_command; cbn.
  destruct (network request); cbn; [now rewrite app_nil_r | reflexivity].
Qed.

End Runs.

(** ** The update-status request *)

Lemma append_cancel (s t u : string) : s ++ t = s ++ u -> t = u.
Proof.
  induction s as [|a s IH]; simpl; intro H; [exact H|].
  injection H as H. now apply IH.
Qed.

(** C1. The update check sends one POST; its URL is the REST base URL
    followed by the text of the source's template, which holds spaces and
    is, for every [refresh], another string than the path of the spec's
    table, [/machine/update_status?refresh=] and the value. *)
Theorem checkForUpdates_request (network : Request -> Promise Response)
    (refresh : option bool) (st : State) :
  let base := buildConnectionURL (this st) false in
  let sent :=
    {| method := POST;
       url := base ++ "/machine/update / status ? refresh = "
                   ++ JSString.of_optional_bool refresh |} in
  requests (world (snd (checkForUpdates network refresh st)))
  = (requests (world st) ++ [sent])%list /\
  url sent <> base ++ Spec.update_status_path refresh.
Proof.
  cbn zeta. split.
  - rewrite checkForUpdates_run. reflexivity.
  - cbn [url]. intro H. apply append_cancel in H.
    destruct refresh as [[|]|]; discriminate H.
Qed.

Example checkForUpdates_request_mainsail :
  requests (world (snd (checkForUpdates Spec.down (Some false) Spec.fresh)))
  = [{| method := POST;
        url := "http://mainsail.local/machine/update / status ? refresh = false" |}].
Proof. reflexivity. Qed.

(** ** The connection test *)

(** C5. The connection test sends one GET to the REST base URL and its
    promise is always fulfilled, never rejected: with [true] exactly when
    the request is answered with a status from 200 to 299, with [false]
    both for any other status and when the request itself fails. *)
Theorem testConnection_spec (network : Request -> Promise Response) (st : State) :
  let request := {| method := GET; url := buildConnectionURL (this st) false |} in
  let run := testConnection network st in
  requests (world (snd run)) = (requests (world st) ++ [request])%list /\
  unhandledRejections (world (snd run)) = unhandledRejections (world st) /\
  fst run
  = Return (Fulfilled match network request with
                      | Fulfilled response =>
                          Nat.leb 200 (status response)
                          && Nat.leb (status response) 299
                      | Rejected _ => false
                      end) /\
  (fst run = Return (Fulfilled true) <->
   exists response,
     network request = Fulfilled response /\ 200 <= status response <= 299).
Proof.
  cbn zeta. rewrite testConnection_run. cbn [fst snd world this].
  repeat split; try reflexivity.
  - intro H. destruct (network _) as [response|e]; [|discriminate H].
    exists response. split; [reflexivity|].
    injection H as H. unfold ok in H.
    apply andb_true_iff in H. destruct H as [H1 H2].
    apply Nat.leb_le in H1, H2. lia.
  - intros [response [-> [H1 H2]]]. unfold ok.
    apply Nat.leb_le in H1, H2. now rewrite H1, H2.
Qed.

Example testConnection_down :
  fst (testConnection Spec.down Spec.fresh) = Return (Fulfilled false).
Proof. reflexivity. Qed.

Example testConnection_not_found :
  fst (testConnection
         (fun _ => Fulfilled {| status := 404; json := Rejected SyntaxError |})
         Spec.fresh)
  = Return (Fulfilled false).
Proof. reflexivity. Qed.

(** ** The control commands *)

(** C7, as amended. Each control command sends one POST to its path under
    the REST base URL, returns no value and throws nothing, and changes
    nothing of the adapter; the promise of the request is let go with no
    handler on it, so that a rejection of the request is left unhandled. *)
Theorem control_commands_fire_and_forget
    (network : Request -> Promise Response) (st : State) :
  Spec.fire_and_forget network st "/printer/emergency_stop"
    (emergencyStop network st) /\
  Spec.fire_and_forget network st "/printer/restart" (restart network st) /\
  Spec.fire_and_forget network st "/printer/firmware_restart"
    (firmwareRestart network st).
Proof.
  rewrite emergencyStop_run, restart_run, firmwareRestart_run.
  unfold Spec.fire_and_forget; cbn [fst snd].
  repeat split;
    try apply after_command_requests;
    try apply after_command_unhandled;
    unfold Spec.after_command; cbn; destruct (network _); reflexivity.
Qed.

(** C7, as stated, fails: with the network down, the emergency stop leaves
    the rejection of its request unhandled. *)
Lemma emergencyStop_unhandled_rejection :
  unhandledRejections (world (snd (emergencyStop Spec.down Spec.fresh)))
  = [TypeError] /\
  ~ Spec.surfaces_no_failure Spec.fresh (emergencyStop Spec.down Spec.fresh).
Proof.
  split; [reflexivity|].
  intros [_ H]. discriminate H.
Qed.

(** ** The WebSocket session *)

Lemma append_nil_r (s : string) : s ++ "" = s.
Proof. induction s as [|a s IH]; cbn; [reflexivity | now rewrite IH]. Qed.

(** The WebSocket URL of an address made of [http], [A] and perhaps one
    slash. *)
Lemma build_websocket_http (A : string) (slash : bool) :
  JSString.endsWith A "/" = false ->
  Spec.build ("http" ++ A ++ (if slash then "/" else "")) true = "ws" ++ A.
Proof.
  intro Hslash. rewrite build_websocket. destruct slash.
  - rewrite <- append_assoc. apply build_rest_slash.
  - rewrite append_nil_r. now apply build_rest, endsWith_ws.
Qed.

(** C8, as stated, fails: for an address whose scheme the [ws] constructor
    refuses, the constructor throws, so that no socket is opened, nothing is
    stored and the promise is rejected instead of carrying a handle. *)
Lemma openSocketConnection_refused :
  openSocketConnection Observe.ws_accepts Observe.ftp_printer
  = (Return (Rejected SyntaxError), Observe.ftp_printer) /\
  sockets (world (snd (openSocketConnection Observe.ws_accepts Observe.ftp_printer)))
  = [] /\
  socket (this (snd (openSocketConnection Observe.ws_accepts Observe.ftp_printer)))
  = None.
Proof. repeat split. Qed.

(** C8, as amended. When the [ws] constructor takes the URL, opening the
    socket connection creates one socket, for the configured address with its
    scheme rewritten and [/websocket] after it: an address [http], [A] and
    perhaps a slash gives [ws], [A] and [/websocket].  The promise is
    fulfilled with the new handle, the adapter now holds that handle
    whatever it held before, and every socket that existed is still in the
    state it was in.  When the constructor refuses the URL, the promise is
    rejected and neither the adapter nor the table of sockets changes. *)
Theorem openSocketConnection_spec (accepts : string -> bool) (st : State)
    (Haccepts : accepts (buildConnectionURL (this st) true ++ "/websocket") = true) :
  let url := buildConnectionURL (this st) true ++ "/websocket" in
  let handle := List.length (sockets (world st)) in
  let opened := {| socket_url := url; readyState := CONNECTING |} in
  let run := openSocketConnection accepts st in
  fst run = Return (Fulfilled handle) /\
  socket (this (snd run)) = Some handle /\
  sockets (world (snd run)) = (sockets (world st) ++ [opened])%list /\
  nth_error (sockets (world (snd run))) handle = Some opened /\
  firstn handle (sockets (world (snd run))) = sockets (world st) /\
  requests (world (snd run)) = requests (world st) /\
  (forall (A : string) (slash : bool),
      JSString.endsWith A "/" = false ->
      connectionAddress (this st) = "http" ++ A ++ (if slash then "/" else "") ->
      url = "ws" ++ A ++ "/websocket") /\
  (forall other : State,
      accepts (buildConnectionURL (this other) true ++ "/websocket") = false ->
      openSocketConnection accepts other = (Return (Rejected SyntaxError), other)).
Proof.
  cbn zeta. rewrite openSocketConnection_run. cbn zeta. rewrite Haccepts.
  cbn [fst snd this world socket sockets requests add_socket].
  split; [reflexivity|]. split; [reflexivity|]. split; [reflexivity|].
  split; [rewrite nth_error_app2 by lia; now rewrite Nat.sub_diag|].
  split; [rewrite firstn_app, Nat.sub_diag, firstn_all; cbn; apply app_nil_r|].
  split; [reflexivity|]. split.
  - intros A slash Hslash Haddress.
    rewrite buildConnectionURL_address, Haddress, build_websocket_http by exact Hslash.
    apply append_assoc.
  - intros other Hrefused. rewrite openSocketConnection_run. cbn zeta.
    now rewrite Hrefused.
Qed.

Lemma openSocketConnection_spec_witness :
  Observe.ws_accepts (buildConnectionURL (this Spec.fresh) true ++ "/websocket")
  = true /\
  sockets (world (snd (openSocketConnection Observe.ws_accepts Spec.fresh)))
  = [{| socket_url := "ws://mainsail.local/websocket"; readyState := CONNECTING |}].
Proof.
  split; [reflexivity|].
  apply (openSocketConnection_spec Observe.ws_accepts Spec.fresh). reflexivity.
Defined.

(** A second call replaces the stored handle and leaves the first socket
    open. *)
Example openSocketConnection_twice :
  let run :=
    openSocketConnection Observe.ws_accepts
      (snd (openSocketConnection Observe.ws_accepts Spec.fresh)) in
  socket (this (snd run)) = Some 1 /\
  map readyState (sockets (world (snd run))) = [CONNECTING; CONNECTING].
Proof. split; reflexivity. Qed.

(** ** The frame of the methods *)


(** ** Classifying the modules *)

Section Classification.

Lemma get_defined (v : value) (k : string) :
  Spec.nullish v = false -> get v k = Return (Spec.raw_entry v k).
Proof.
  unfold Spec.raw_entry.
  destruct v; cbn; try discriminate; intros _;
    try reflexivity; destruct (String.eqb k "length"); reflexivity.
Qed.

Lemma raw_entry_object (mapping : list (string * value)) (module : string) :
  Spec.raw_entry (VObj mapping) module = lookup module mapping.
Proof. reflexivity. Qed.

(** A value that passes the repository guard is an object whose
    [commits_behind] is an array, so reading its length cannot throw. *)
Lemma isUpdateRepositoryStatus_inv (raw : value) :
  isUpdateRepositoryStatus raw = true ->
  exists properties commits,
    raw = VObj properties /\
    lookup "commits_behind" properties = VArr commits.
Proof.
  destruct raw as [| | | | | |properties]; cbn; try discriminate.
  intro H. apply andb_true_iff in H. destruct H as [_ H].
  destruct (lookup "commits_behind" properties) as [| | | | |commits|] eqn:E;
    try discriminate.
  now exists properties, commits.
Qed.

Lemma isSystemUpdateStatus_inv (raw : value) :
  isSystemUpdateStatus raw = true -> exists properties, raw = VObj properties.
Proof.
  destruct raw as [| | | | | |properties]; cbn; try discriminate.
  now exists properties.
Qed.

(** The callback of [map] never throws on the keys of a value that has
    keys, and computes the spec's classification, with [null] for a dropped
    module. *)
Lemma classify_normalize (versionInfo : value) (module : string) :
  Spec.nullish versionInfo = false ->
  classify versionInfo module
  = Return match Spec.normalize "commits_behind" (Spec.raw_entry versionInfo module) with
           | Some entry => entry
           | None => VNull
           end.
Proof.
  intro Hv. unfold classify. cbn [bind Monad_Result].
  rewrite (get_defined _ _ Hv).
  set (raw := Spec.raw_entry versionInfo module).
  unfold Spec.normalize.
  destruct (is_undefined raw) eqn:Hu; cbn [negb]; [reflexivity|].
  destruct (isUpdateRepositoryStatus raw) eqn:Hr.
  - destruct (isUpdateRepositoryStatus_inv _ Hr) as (properties & commits & -> & Hc).
    unfold Spec.commits_count. cbn. rewrite Hc. reflexivity.
  - destruct (isSystemUpdateStatus raw) eqn:Hs; [|reflexivity].
    destruct (isSystemUpdateStatus_inv _ Hs) as (properties & ->).
    reflexivity.
Qed.

Lemma mapM_Return {A B : Type} (f : A -> Result B) (g : A -> B) (l : list A) :
  (forall a, f a = Return (g a)) -> mapM f l = Return (map g l).
Proof.
  intro H. induction l as [|a l IH]; cbn; [reflexivity|].
  now rewrite H, IH.
Qed.

Lemma normalize_not_null (count_field : string) (raw entry : value) :
  Spec.normalize count_field raw = Some entry -> is_null entry = false.
Proof.
  unfold Spec.normalize.
  destruct (is_undefined raw); [discriminate|].
  destruct (isUpdateRepositoryStatus raw); [now intros [= <-]|].
  destruct (isSystemUpdateStatus raw); [now intros [= <-] | discriminate].
Qed.

(** Filtering the [null]s out of the mapped array leaves the emitted
    entries, in the order of the keys. *)
Lemma filter_emitted (raw_of : string -> value) (modules : list string) :
  filter (fun module => negb (is_null module))
    (map (fun module =>
            match Spec.normalize "commits_behind" (raw_of module) with
            | Some entry => entry
            | None => VNull
            end) modules)
  = flat_map (fun module => Spec.emitted "commits_behind" (raw_of module)) modules.
Proof.
  induction modules as [|module modules IH]; [reflexivity|].
  cbn [map filter flat_map]. rewrite IH. unfold Spec.emitted.
  destruct (Spec.normalize "commits_behind" (raw_of module)) as [entry|] eqn:E.
  - now rewrite (normalize_not_null _ _ _ E).
  - reflexivity.
Qed.

Lemma moduleInfo_parsed (updateStatus versionInfo : value) :
  Spec.parsed_version_info (Fulfilled updateStatus) = Some versionInfo ->
  moduleInfo updateStatus
  = Return (VArr (Spec.sequence "commits_behind" versionInfo)).
Proof.
  unfold Spec.parsed_version_info, moduleInfo. cbn [bind Monad_Result].
  destruct (get updateStatus "result") as [result|]; [|discriminate].
  destruct (get result "version_info") as [vi|]; [|discriminate].
  destruct (Spec.nullish vi) eqn:Hv; [discriminate|].
  intros [= ->].
  assert (Hk : Object_keys versionInfo = Return (map fst (own_entries versionInfo))).
  { destruct versionInfo; try discriminate; reflexivity. }
  rewrite Hk.
  rewrite (mapM_Return _ _ _ (fun module => classify_normalize versionInfo module Hv)).
  cbn [ret]. unfold Spec.sequence. now rewrite filter_emitted.
Qed.

Lemma moduleInfo_unparsed (updateStatus : value) :
  Spec.parsed_version_info (Fulfilled updateStatus) = None ->
  exists e, moduleInfo updateStatus = Throw e.
Proof.
  unfold Spec.parsed_version_info, moduleInfo. cbn [bind Monad_Result].
  destruct (get updateStatus "result") as [result|e]; [|now exists e].
  destruct (get result "version_info") as [vi|e]; [|now exists e].
  destruct vi; cbn; try discriminate; intros _; now exists TypeError.
Qed.

(** The promise chain computes the spec's result. *)
Lemma update_chain_expected (p : Promise Response) :
  Spec.update_chain p = Fulfilled (Spec.expected_result p).
Proof.
  unfold Spec.update_chain, Spec.expected_result, Spec.version_info_of.
  destruct p as [response|e]; [|reflexivity].
  cbn [then_]. destruct (ok response); cbn [negb]; [|reflexivity].
  destruct (json response) as [updateStatus|e]; [|reflexivity].
  cbn [then_].
  destruct (Spec.parsed_version_info (Fulfilled updateStatus)) as [vi|] eqn:E.
  - now rewrite (moduleInfo_parsed _ _ E).
  - destruct (moduleInfo_unparsed _ E) as [e ->]. reflexivity.
Qed.

End Classification.

(** ** The result of an update check *)

Lemma checkForUpdates_result (network : Request -> Promise Response)
    (refresh : option bool) (st : State) :
  fst (checkForUpdates network refresh st)
  = Return (Fulfilled
              (Spec.expected_result (network (Spec.update_request (this st) refresh)))).
Proof. now rewrite checkForUpdates_run, update_chain_expected. Qed.

Lemma normalize_recognized (raw entry : value) :
  Spec.normalize "commits_behind" raw = Some entry -> Spec.recognized entry = true.
Proof.
  unfold Spec.normalize.
  destruct (is_undefined raw); [discriminate|].
  destruct (isUpdateRepositoryStatus raw).
  - intros [= <-]. unfold Spec.recognized, Spec.is_RepositoryModule.
    cbn. unfold Spec.commits_count.
    destruct (lookup "commits_behind" (own_entries raw)); try reflexivity.
    apply orb_true_iff. left. apply Z.leb_le. lia.
  - destruct (isSystemUpdateStatus raw); [|discriminate].
    now intros [= <-].
Qed.

Lemma normalize_defined (count_field : string) (raw entry : value) :
  Spec.normalize count_field raw = Some entry ->
  is_undefined raw = false /\ Spec.is_boolean raw = false.
Proof.
  unfold Spec.normalize.
  destruct raw; cbn; try discriminate; now split.
Qed.

Lemma emitted_length (modules : list string) (raw_of : string -> value) :
  List.length
    (flat_map (fun module => Spec.emitted "commits_behind" (raw_of module)) modules)
  <= List.length modules.
Proof.
  induction modules as [|module modules IH]; cbn; [lia|].
  rewrite length_app. unfold Spec.emitted at 1.
  destruct (Spec.normalize _ _); cbn; lia.
Qed.

Lemma emitted_recognized (modules : list string) (raw_of : string -> value) :
  forallb Spec.recognized
    (flat_map (fun module => Spec.emitted "commits_behind" (raw_of module)) modules)
  = true.
Proof.
  induction modules as [|module modules IH]; [reflexivity|].
  cbn [flat_map]. rewrite forallb_app, IH, andb_true_r.
  unfold Spec.emitted.
  destruct (Spec.normalize _ _) as [entry|] eqn:E; [|reflexivity].
  cbn. now rewrite (normalize_recognized _ _ E).
Qed.

(** C3. For every [version_info] mapping a successful response carries,
    the update check is fulfilled with a sequence no longer than the keys
    of the mapping, each entry of which is of one of the two recognized
    variants and is the classification of a key, taken in order, whose raw
    value is neither undefined nor a boolean. *)
Theorem checkForUpdates_entries (network : Request -> Promise Response)
    (refresh : option bool) (st : State)
    (response : Response) (mapping : list (string * value))
    (Hresponse : network (Spec.update_request (this st) refresh) = Fulfilled response)
    (Hmapping : Spec.version_info_of response = Some (VObj mapping)) :
  exists out : list value,
    fst (checkForUpdates network refresh st) = Return (Fulfilled (VArr out)) /\
    List.length out <= List.length (map fst mapping) /\
    forallb Spec.recognized out = true /\
    Forall2 (fun module entry =>
               classify (VObj mapping) module = Return entry /\
               is_undefined (lookup module mapping) = false /\
               Spec.is_boolean (lookup module mapping) = false)
      (filter (Spec.kept mapping) (map fst mapping)) out.
Proof.
  exists (Spec.sequence "commits_behind" (VObj mapping)).
  rewrite checkForUpdates_result, Hresponse.
  unfold Spec.expected_result. rewrite Hmapping.
  split; [reflexivity|]. unfold Spec.sequence. cbn [own_entries].
  split; [apply emitted_length|].
  split; [apply emitted_recognized|].
  generalize (map fst mapping) as modules.
  induction modules as [|module modules IH]; [constructor|].
  cbn [filter flat_map]. unfold Spec.kept at 1, Spec.emitted at 1.
  rewrite raw_entry_object.
  destruct (Spec.normalize "commits_behind" (lookup module mapping))
    as [entry|] eqn:E; [|exact IH].
  cbn [app]. constructor; [|exact IH].
  split; [|exact (normalize_defined _ _ _ E)].
  rewrite classify_normalize by reflexivity.
  now rewrite raw_entry_object, E.
Qed.

Lemma checkForUpdates_entries_witness :
  Spec.answering (Spec.envelope Spec.scenario)
    (Spec.update_request (this Spec.fresh) (Some true))
  = Fulfilled {| status := 200; json := Fulfilled (Spec.envelope Spec.scenario) |} /\
  Spec.version_info_of
    {| status := 200; json := Fulfilled (Spec.envelope Spec.scenario) |}
  = Some (VObj Spec.scenario) /\
  exists out : list value,
    fst (checkForUpdates (Spec.answering (Spec.envelope Spec.scenario))
           (Some true) Spec.fresh)
    = Return (Fulfilled (VArr out)) /\
    List.length out <= List.length (map fst Spec.scenario) /\
    forallb Spec.recognized out = true /\
    Forall2 (fun module entry =>
               classify (VObj Spec.scenario) module = Return entry /\
               is_undefined (lookup module Spec.scenario) = false /\
               Spec.is_boolean (lookup module Spec.scenario) = false)
      (filter (Spec.kept Spec.scenario) (map fst Spec.scenario)) out.
Proof.
  split; [reflexivity|]. split; [reflexivity|].
  apply (checkForUpdates_entries (Spec.answering (Spec.envelope Spec.scenario))
           (Some true) Spec.fresh
           {| status := 200; json := Fulfilled (Spec.envelope Spec.scenario) |}
           Spec.scenario);
    reflexivity.
Defined.

Lemma expected_null_iff (p : Promise Response) :
  Spec.expected_result p = VNull <->
  Spec.transport_failed p || Spec.unsuccessful p || Spec.parse_failed p = true.
Proof.
  unfold Spec.expected_result, Spec.version_info_of.
  destruct p as [response|e]; cbn; [|now split].
  destruct (ok response); cbn;
    destruct (Spec.parsed_version_info (json response)); now split.
Qed.

(** C4. The update check is fulfilled with [null] exactly when the request
    fails, or its response is not successful, or its body does not parse as
    an update-status envelope; otherwise with the whole sequence of
    entries, which for an empty mapping is the empty sequence. *)
Theorem checkForUpdates_null_or_sequence (network : Request -> Promise Response)
    (refresh : option bool) (st : State) :
  let p := network (Spec.update_request (this st) refresh) in
  let result := fst (checkForUpdates network refresh st) in
  result = Return (Fulfilled (Spec.expected_result p)) /\
  (result = Return (Fulfilled VNull) <->
   Spec.transport_failed p || Spec.unsuccessful p || Spec.parse_failed p = true) /\
  (result = Return (Fulfilled VNull) \/
   exists out, result = Return (Fulfilled (VArr out))) /\
  fst (checkForUpdates (Spec.answering (Spec.envelope [])) refresh st)
  = Return (Fulfilled (VArr [])).
Proof.
  cbn zeta. rewrite !checkForUpdates_result.
  split; [reflexivity|]. split; [|split; [|reflexivity]].
  - rewrite <- expected_null_iff. split; [now intros [= ->] | now intros ->].
  - unfold Spec.expected_result.
    destruct (network _) as [response|e]; [|now left].
    destruct (Spec.version_info_of response); [right; eauto | now left].
Qed.

Example checkForUpdates_bad_gateway :
  fst (checkForUpdates
         (fun _ => Fulfilled {| status := 502;
                                json := Fulfilled (Spec.envelope Spec.scenario) |})
         None Spec.fresh)
  = Return (Fulfilled VNull).
Proof. reflexivity. Qed.

Example checkForUpdates_not_json :
  fst (checkForUpdates
         (fun _ => Fulfilled {| status := 200; json := Rejected SyntaxError |})
         None Spec.fresh)
  = Return (Fulfilled VNull).
Proof. reflexivity. Qed.

Example checkForUpdates_no_version_info :
  fst (checkForUpdates (Spec.answering (VObj [("result", VObj [])])) None Spec.fresh)
  = Return (Fulfilled VNull).
Proof. reflexivity. Qed.

(** ** The projection of the entries *)

(** C6, as stated, fails on the spec's own scenario: the count of commits
    is emitted under the name [commits_behind], not [commitsBehind]. *)
Lemma checkForUpdates_scenario_count_field :
  fst (checkForUpdates (Spec.answering (Spec.envelope Spec.scenario))
         None Spec.fresh)
  = Return (Fulfilled (VArr Spec.scenario_result)) /\
  Spec.scenario_result <> Spec.scenario_expected.
Proof. split; [reflexivity | discriminate]. Qed.

(** C6, as amended. For every [version_info] mapping a successful response
    carries, the update check is fulfilled with the entries emitted for the
    keys in enumeration order: a value with a [remote_version] and a
    [commits_behind] sequence gives [local], [remote] and, under the name
    [commits_behind], the length of that sequence; a value with a
    [package_list] that is not of the first shape gives [packages]; a
    boolean gives nothing. *)
Theorem checkForUpdates_projection (network : Request -> Promise Response)
    (refresh : option bool) (st : State)
    (response : Response) (mapping : list (string * value))
    (Hresponse : network (Spec.update_request (this st) refresh) = Fulfilled response)
    (Hmapping : Spec.version_info_of response = Some (VObj mapping)) :
  fst (checkForUpdates network refresh st)
  = Return (Fulfilled (VArr (Spec.normalized "commits_behind" mapping))) /\
  (forall module properties commits,
      lookup module mapping = VObj properties ->
      is_undefined (lookup "remote_version" properties) = false ->
      lookup "commits_behind" properties = VArr commits ->
      classify (VObj mapping) module
      = Return (VObj [("local", lookup "version" properties);
                      ("remote", lookup "remote_version" properties);
                      ("commits_behind", VNum (Z.of_nat (List.length commits)))]) /\
      Spec.emitted "commits_behind" (lookup module mapping)
      = [VObj [("local", lookup "version" properties);
               ("remote", lookup "remote_version" properties);
               ("commits_behind", VNum (Z.of_nat (List.length commits)))]]) /\
  (forall module properties,
      lookup module mapping = VObj properties ->
      isUpdateRepositoryStatus (VObj properties) = false ->
      is_undefined (lookup "package_list" properties) = false ->
      classify (VObj mapping) module
      = Return (VObj [("packages", lookup "package_list" properties)]) /\
      Spec.emitted "commits_behind" (lookup module mapping)
      = [VObj [("packages", lookup "package_list" properties)]]) /\
  (forall module b,
      lookup module mapping = VBool b ->
      classify (VObj mapping) module = Return VNull /\
      Spec.emitted "commits_behind" (lookup module mapping) = []) /\
  Spec.normalized "commits_behind" Spec.scenario = Spec.scenario_result.
Proof.
  split.
  { rewrite checkForUpdates_result, Hresponse.
    unfold Spec.expected_result. now rewrite Hmapping. }
  split; [|split; [|split; [|reflexivity]]].
  - intros module properties commits Hraw Hremote Hcommits.
    rewrite classify_normalize, raw_entry_object by reflexivity.
    unfold Spec.emitted. rewrite Hraw.
    unfold Spec.normalize, Spec.commits_count. cbn.
    now rewrite Hremote, Hcommits.
  - intros module properties Hraw Hrepository Hpackages.
    rewrite classify_normalize, raw_entry_object by reflexivity.
    unfold Spec.emitted. rewrite Hraw.
    unfold Spec.normalize. rewrite Hrepository. cbn.
    now rewrite Hpackages.
  - intros module b Hraw.
    rewrite classify_normalize, raw_entry_object by reflexivity.
    unfold Spec.emitted. now rewrite Hraw.
Qed.

Lemma checkForUpdates_projection_witness :
  Spec.answering (Spec.envelope Spec.scenario)
    (Spec.update_request (this Spec.fresh) None)
  = Fulfilled {| status := 200; json := Fulfilled (Spec.envelope Spec.scenario) |} /\
  Spec.version_info_of
    {| status := 200; json := Fulfilled (Spec.envelope Spec.scenario) |}
  = Some (VObj Spec.scenario) /\
  fst (checkForUpdates (Spec.answering (Spec.envelope Spec.scenario))
         None Spec.fresh)
  = Return (Fulfilled (VArr (Spec.normalized "commits_behind" Spec.scenario))).
Proof.
  split; [reflexivity|]. split; [reflexivity|].
  apply (checkForUpdates_projection (Spec.answering (Spec.envelope Spec.scenario))
           None Spec.fresh
           {| status := 200; json := Fulfilled (Spec.envelope Spec.scenario) |}
           Spec.scenario);
    reflexivity.
Defined.

(** Classifying the same payload again gives the same result: the second
    [then] callback is a function of the parsed body alone. *)
Lemma classification_deterministic (st st' : State) (refresh refresh' : option bool)
    (body : value) :
  fst (checkForUpdates (Spec.answering body) refresh st)
  = fst (checkForUpdates (Spec.answering body) refresh' st').
Proof. now rewrite !checkForUpdates_result. Qed.

(** ** The association of MaterialUsage with Material *)

Section Association.
Import Materials.

Variables MaterialAttributes Float Date : Type.

(** The foreign key column and the association name the same key of the
    same table. *)
Lemma associate_references :
  onDelete associate = RESTRICT /\
  onUpdate associate = CASCADE /\
  option_map (fun column => (allowNull (snd column), references (snd column)))
    (List.find (fun column => String.eqb (fst column) (foreignKey associate))
       (fst initialize))
  = Some (false, Some {| model := target associate; key := targetKey associate |}).
Proof. repeat split. Qed.

Lemma cascade_unreferenced (id id' : Z) (usages : list (MaterialUsage Float Date)) :
  existsb (references_material id) usages = false ->
  map (fun u => if references_material id u then set_materialId id' u else u) usages
  = usages.
Proof.
  induction usages as [|u usages IH]; [reflexivity|].
  cbn [existsb map]. intro H. apply orb_false_iff in H. destruct H as [Hu H].
  now rewrite Hu, IH.
Qed.

(** C9. Under the association the source declares, deleting a Material row
    that a usage record references is refused and leaves both tables as
    they were, and giving a Material row a new identifier succeeds and sets
    the [materialId] of every usage record that referenced the old
    identifier to the new one, leaving the other records alone. *)
Theorem association_restrict_cascade
    (db : Database MaterialAttributes Float Date) (id id' : Z)
    (Hrow : existsb (is_material id) (material db) = true)
    (Hnew : existsb (is_material id') (material db) = false) :
  (existsb (references_material id) (material_usage db) = true ->
   destroy_Material associate id db = (Refused ForeignKeyConstraintError, db)) /\
  (existsb (references_material id) (material_usage db) = false ->
   fst (destroy_Material associate id db) = Done) /\
  exists db' : Database MaterialAttributes Float Date,
    update_Material_id associate id id' db = (Done, db') /\
    material_usage db'
    = map (fun u => if references_material id u then set_materialId id' u else u)
        (material_usage db) /\
    existsb (references_material id) (material_usage db') = false /\
    material db'
    = map (fun m => if is_material id m then set_material_materialId id' m else m)
        (material db).
Proof.
  assert (Hne : Z.eqb id id' = false).
  { destruct (Z.eqb_spec id id') as [->|]; [congruence | reflexivity]. }
  unfold destroy_Material, update_Material_id.
  rewrite Hrow, Hnew, Hne. cbn [negb].
  split; [now intros ->|]. split; [now intros ->|].
  assert (Hgone : forall usages : list (MaterialUsage Float Date),
             existsb (references_material id)
               (map (fun u => if references_material id u
                              then set_materialId id' u else u) usages) = false).
  { induction usages as [|u usages IH]; [reflexivity|].
    cbn [map existsb]. rewrite IH, orb_false_r.
    destruct (references_material id u) eqn:E; [|exact E].
    unfold references_material. cbn. now rewrite Z.eqb_sym. }
  destruct (existsb (references_material id) (material_usage db)) eqn:Href.
  - cbn [onUpdate associate]. eexists. split; [reflexivity|].
    cbn [material_usage material]. repeat split. apply Hgone.
  - eexists. split; [reflexivity|]. cbn [material_usage material].
    rewrite (cascade_unreferenced _ _ _ Href). repeat split. exact Href.
Qed.

End Association.

Lemma association_restrict_cascade_witness :
  existsb (Materials.is_material 1) (Materials.material Materials.example_database)
  = true /\
  existsb (Materials.is_material 3) (Materials.material Materials.example_database)
  = false /\
  Materials.destroy_Material Materials.associate 1 Materials.example_database
  = (Materials.Refused Materials.ForeignKeyConstraintError,
     Materials.example_database).
Proof.
  split; [reflexivity|]. split; [reflexivity|].
  apply (association_restrict_cascade string Z Z Materials.example_database 1 3);
    reflexivity.
Defined.

Example association_cascade_example :
  map Materials.materialId
    (Materials.material_usage
       (snd (Materials.update_Material_id Materials.associate 1 3
               Materials.example_database)))
  = [3; 2; 3]%Z.
Proof. reflexivity. Qed.

(** * Further properties of the adapter *)

(** ** More on the Connection URL Builder *)

Section BuilderFacts.
Import JSString.

Lemma endsWith_slice (s : string) (c : ascii) :
  endsWith s c = true -> s = slice_0_m1 s ++ String c EmptyString.
Proof.
  induction s as [|a s IH]; [discriminate|].
  destruct s as [|b s].
  - cbn. intro H. apply Ascii.eqb_eq in H. now subst.
  - rewrite endsWith_cons, slice_cons by discriminate.
    intro H. cbn [append]. f_equal. now apply IH.
Qed.

Lemma length_snoc (s : string) (c : ascii) :
  String.length (s ++ String c EmptyString) = S (String.length s).
Proof. induction s as [|a s IH]; cbn; [reflexivity | now rewrite IH]. Qed.

Lemma includes_unfold (s pat : string) :
  Observe.includes s pat =
  startsWith s pat
  || match s with
     | EmptyString => false
     | String _ s' => Observe.includes s' pat
     end.
Proof. destruct s; reflexivity. Qed.

Lemma replace_absent (s pat rep : string) :
  Observe.includes s pat = false -> replace s pat rep = s.
Proof.
  induction s as [|a s IH]; intro H;
    rewrite includes_unfold in H; apply orb_false_iff in H;
    destruct H as [H1 H2]; rewrite replace_unfold, H1; [reflexivity|].
  now rewrite IH.
Qed.

Lemma startsWith_nil (s : string) : startsWith s EmptyString = true.
Proof. destruct s; reflexivity. Qed.

Lemma startsWith_http_snoc (s : string) :
  startsWith (s ++ "/") "http" = startsWith s "http".
Proof.
  destruct s as [|a [|b [|c [|d s]]]]; cbn [startsWith append];
    repeat match goal with
           | |- context [Ascii.eqb ?x ?y] => is_var y; destruct (Ascii.eqb x y)
           end; rewrite ?startsWith_nil; reflexivity.
Qed.

Lemma drop_http_snoc (s : string) :
  startsWith s "http" = true -> drop 4 (s ++ "/") = drop 4 s ++ "/".
Proof.
  destruct s as [|a [|b [|c [|d s]]]]; cbn [startsWith];
    rewrite ?andb_false_r; try discriminate; reflexivity.
Qed.

(** A slash put after the address stays after the rewritten address. *)
Lemma replace_http_snoc (s : string) :
  replace (s ++ "/") "http" "ws" = replace s "http" "ws" ++ "/".
Proof.
  induction s as [|a s IH]; [reflexivity|].
  rewrite (replace_unfold (String a s ++ "/")), (replace_unfold (String a s)).
  rewrite startsWith_http_snoc.
  destruct (startsWith (String a s) "http") eqn:E.
  - change (String.length "http") with 4. now rewrite drop_http_snoc.
  - cbn [append]. now rewrite IH.
Qed.

Lemma replace_http_empty (s : string) :
  replace s "http" "ws" = EmptyString -> s = EmptyString.
Proof.
  rewrite replace_unfold. destruct (startsWith s "http"); [discriminate|].
  destruct s; [reflexivity | discriminate].
Qed.

Lemma startsWith_inv (s p : string) :
  startsWith s p = true -> s = p ++ drop (String.length p) s.
Proof.
  revert s. induction p as [|a p IH]; intros s H; [now destruct s|].
  destruct s as [|b s]; [discriminate|]. cbn in H.
  apply andb_true_iff in H. destruct H as [Hab H].
  apply Ascii.eqb_eq in Hab. subst b. cbn. f_equal. now apply IH.
Qed.

(** Rewriting the scheme neither makes nor removes a trailing slash. *)
Lemma endsWith_replace_http (s : string) :
  endsWith (replace s "http" "ws") "/" = endsWith s "/".
Proof.
  induction s as [|a s IH]; [reflexivity|].
  rewrite replace_unfold.
  destruct (startsWith (String a s) "http") eqn:E.
  - rewrite (startsWith_inv _ _ E) at 2.
    change (String.length "http") with 4.
    destruct (drop 4 (String a s)); reflexivity.
  - destruct s as [|b s].
    + reflexivity.
    + rewrite (endsWith_cons a (String b s)) by discriminate.
      rewrite endsWith_cons; [exact IH|].
      intro H. apply replace_http_empty in H. discriminate H.
Qed.

End BuilderFacts.

(** X1. The REST base URL is the configured address or the address less its
    last character, a slash: nothing else is ever cut off, and an address
    made of slashes only is not emptied beyond one of them. *)
Theorem build_rest_strips_at_most_one_slash (A : string) :
  (A = Spec.build A false \/ A = Spec.build A false ++ "/") /\
  String.length A <= S (String.length (Spec.build A false)) /\
  (JSString.endsWith A "/" = true ->
   String.length A = S (String.length (Spec.build A false))).
Proof.
  unfold Spec.build, buildConnectionURL. cbn [connectionAddress constructor].
  destruct (JSString.endsWith A "/") eqn:E.
  - pose proof (endsWith_slice _ _ E) as HA.
    assert (HL : String.length A = S (String.length (JSString.slice_0_m1 A))).
    { rewrite HA at 1. apply length_snoc. }
    split; [now right|]. split; [lia | intros _; exact HL].
  - split; [now left|]. split; [lia | discriminate].
Qed.

(** X2. An address in which [http] does not occur is not rewritten for the
    WebSocket: the socket URL is then the REST base URL itself. *)
Theorem build_websocket_without_http (A : string)
    (Habsent : Observe.includes A "http" = false) :
  Spec.build A true = Spec.build A false.
Proof.
  unfold Spec.build, buildConnectionURL. cbn [connectionAddress constructor].
  now rewrite replace_absent.
Qed.

Lemma build_websocket_without_http_witness :
  Observe.includes "ws://printer.local:7125/" "http" = false /\
  Spec.build "ws://printer.local:7125/" true = "ws://printer.local:7125".
Proof.
  split; [reflexivity|].
  rewrite (build_websocket_without_http "ws://printer.local:7125/"); reflexivity.
Defined.

(** X3. For an address that starts with [http], the REST base URL and the
    WebSocket URL differ in the scheme only: what follows [http] in the one
    follows [ws] in the other, with the same slash stripped. *)
Theorem build_schemes_agree (A : string) :
  exists rest : string,
    Spec.build ("http" ++ A) false = "http" ++ rest /\
    Spec.build ("http" ++ A) true = "ws" ++ rest /\
    (A = rest \/ A = rest ++ "/").
Proof.
  rewrite build_websocket.
  unfold Spec.build, buildConnectionURL. cbn [connectionAddress constructor].
  destruct A as [|a A]; [exists ""; repeat split; now left|].
  change (JSString.endsWith ("http" ++ String a A) "/")
    with (JSString.endsWith (String a A) "/").
  change (JSString.endsWith ("ws" ++ String a A) "/")
    with (JSString.endsWith (String a A) "/").
  destruct (JSString.endsWith (String a A) "/") eqn:E.
  - exists (JSString.slice_0_m1 (String a A)).
    repeat split; [right; now apply endsWith_slice].
  - exists (String a A). repeat split. now left.
Qed.

Lemma build_trailing_slash (A : string) (websocket : bool) :
  JSString.endsWith A "/" = false ->
  Spec.build (A ++ "/") websocket = Spec.build A websocket.
Proof.
  intro Hslash. destruct websocket.
  - unfold Spec.build, buildConnectionURL. cbn [connectionAddress constructor].
    rewrite replace_http_snoc, endsWith_snoc, Ascii.eqb_refl, slice_snoc.
    now rewrite endsWith_replace_http, Hslash.
  - now rewrite build_rest_slash, build_rest.
Qed.

(** X4. A slash at the end of the configured address changes neither the
    REST base URL nor the WebSocket URL, whether or not the address holds
    [http]; a second slash does, since one only is stripped. *)
Theorem build_ignores_trailing_slash (A : string) (websocket : bool)
    (Hslash : JSString.endsWith A "/" = false) :
  Spec.build (A ++ "/") websocket = Spec.build A websocket /\
  Spec.build (A ++ "/" ++ "/") websocket = Spec.build A websocket ++ "/".
Proof.
  split; [now apply build_trailing_slash|].
  rewrite <- append_assoc. destruct websocket.
  - unfold Spec.build, buildConnectionURL. cbn [connectionAddress constructor].
    rewrite !replace_http_snoc, endsWith_snoc, Ascii.eqb_refl, slice_snoc.
    now rewrite endsWith_replace_http, Hslash.
  - now rewrite build_rest_slash, build_rest.
Qed.

Lemma build_ignores_trailing_slash_witness :
  JSString.endsWith "https://voron.lan" "/" = false /\
  Spec.build "https://voron.lan/" true = Spec.build "https://voron.lan" true.
Proof.
  split; [reflexivity|].
  apply (build_ignores_trailing_slash "https://voron.lan" true). reflexivity.
Defined.

(** ** What the methods depend on *)

Section MethodFacts.

Variable network : Request -> Promise Response.
Variable accepts : string -> bool.

(** The runs of two adapters agree as soon as their URLs and worlds do. *)
Lemma observation_by_urls (refresh : option bool) (st1 st2 : State) :
  (forall websocket,
      buildConnectionURL (this st1) websocket
      = buildConnectionURL (this st2) websocket) ->
  world st1 = world st2 ->
  Observe.observation (testConnection network st1)
  = Observe.observation (testConnection network st2) /\
  Observe.observation (checkForUpdates network refresh st1)
  = Observe.observation (checkForUpdates network refresh st2) /\
  Observe.observation (emergencyStop network st1)
  = Observe.observation (emergencyStop network st2) /\
  Observe.observation (restart network st1)
  = Observe.observation (restart network st2) /\
  Observe.observation (firmwareRestart network st1)
  = Observe.observation (firmwareRestart network st2) /\
  Observe.observation (openSocketConnection accepts st1)
  = Observe.observation (openSocketConnection accepts st2).
Proof.
  intros Hurl Hworld.
  rewrite !testConnection_run, !checkForUpdates_run, !emergencyStop_run,
    !restart_run, !firmwareRestart_run, !openSocketConnection_run.
  unfold Observe.observation, Spec.after_command, Spec.command_request,
    Spec.update_request.
  cbn [fst snd world this]. rewrite !Hurl, Hworld.
  destruct (accepts _); repeat split.
  cbn [fst snd]. now rewrite Hworld.
Qed.

(** X5. Of the adapter, the methods use the address alone: two adapters with
    the same address, whatever their API keys, connection types and stored
    sockets, send the same requests, create the same sockets and return the
    same results.  In particular the API key reaches no request. *)
Theorem methods_use_only_the_address (refresh : option bool) (st1 st2 : State)
    (Haddress : connectionAddress (this st1) = connectionAddress (this st2))
    (Hworld : world st1 = world st2) :
  Observe.observation (testConnection network st1)
  = Observe.observation (testConnection network st2) /\
  Observe.observation (checkForUpdates network refresh st1)
  = Observe.observation (checkForUpdates network refresh st2) /\
  Observe.observation (emergencyStop network st1)
  = Observe.observation (emergencyStop network st2) /\
  Observe.observation (restart network st1)
  = Observe.observation (restart network st2) /\
  Observe.observation (firmwareRestart network st1)
  = Observe.observation (firmwareRestart network st2) /\
  Observe.observation (openSocketConnection accepts st1)
  = Observe.observation (openSocketConnection accepts st2).
Proof.
  apply observation_by_urls; [|exact Hworld].
  intro websocket. now rewrite !buildConnectionURL_address, Haddress.
Qed.

(** X6. An adapter configured with a slash at the end of its address runs
    every method as the adapter configured without it does. *)
Theorem methods_ignore_trailing_slash (refresh : option bool) (st1 st2 : State)
    (Hslash : JSString.endsWith (connectionAddress (this st1)) "/" = false)
    (Haddress : connectionAddress (this st2) = connectionAddress (this st1) ++ "/")
    (Hworld : world st1 = world st2) :
  Observe.observation (testConnection network st1)
  = Observe.observation (testConnection network st2) /\
  Observe.observation (checkForUpdates network refresh st1)
  = Observe.observation (checkForUpdates network refresh st2) /\
  Observe.observation (emergencyStop network st1)
  = Observe.observation (emergencyStop network st2) /\
  Observe.observation (restart network st1)
  = Observe.observation (restart network st2) /\
  Observe.observation (firmwareRestart network st1)
  = Observe.observation (firmwareRestart network st2) /\
  Observe.observation (openSocketConnection accepts st1)
  = Observe.observation (openSocketConnection accepts st2).
Proof.
  apply observation_by_urls; [|exact Hworld].
  intro websocket. rewrite !buildConnectionURL_address, Haddress.
  symmetry. now apply build_trailing_slash.
Qed.

(** ** Sessions *)

(** X7. When the [ws] constructor takes the URL, opening the socket
    connection twice creates two sockets for the same URL; the adapter
    holds the second, and the first stays in the table, still connecting,
    with no handle to it left in the adapter. *)
Theorem openSocketConnection_twice_orphans (st : State)
    (Haccepts : accepts (buildConnectionURL (this st) true ++ "/websocket") = true) :
  let first := openSocketConnection accepts st in
  let second := openSocketConnection accepts (snd first) in
  let handle := List.length (sockets (world st)) in
  let opened :=
    {| socket_url := buildConnectionURL (this st) true ++ "/websocket";
       readyState := CONNECTING |} in
  fst first = Return (Fulfilled handle) /\
  fst second = Return (Fulfilled (S handle)) /\
  socket (this (snd second)) = Some (S handle) /\
  sockets (world (snd second)) = (sockets (world st) ++ [opened; opened])%list /\
  nth_error (sockets (world (snd second))) handle = Some opened.
Proof.
  cbn zeta. rewrite (openSocketConnection_run accepts st). cbn zeta.
  rewrite Haccepts. cbn [fst snd].
  rewrite openSocketConnection_run. cbn zeta.
  change (accepts (buildConnectionURL _ true ++ "/websocket"))
    with (accepts (buildConnectionURL (this st) true ++ "/websocket")).
  rewrite Haccepts. cbn [fst snd world this socket sockets add_socket].
  rewrite length_app, Nat.add_1_r, <- app_assoc.
  repeat split.
  rewrite nth_error_app2 by lia. now rewrite Nat.sub_diag.
Qed.

Lemma session_ok_rest (st st' : State) :
  this st' = this st ->
  sockets (world st') = sockets (world st) ->
  Observe.session_ok st' = Observe.session_ok st.
Proof. unfold Observe.session_ok. now intros -> ->. Qed.

Lemma after_command_sockets (request : Request) (st : State) :
  sockets (world (Spec.after_command network request st)) = sockets (world st).
Proof. unfold Spec.after_command; cbn. destruct (network request); reflexivity. Qed.

(** X8. That the session the adapter holds is a socket it created for the
    WebSocket URL of its address holds of a new adapter and is kept by
    every method, opening the socket connection included, whether the [ws]
    constructor takes the URL or throws; and it holds after an opening
    that the constructor accepts, from any state. *)
Theorem session_ok_invariant (refresh : option bool) (st : State)
    (Hsession : Observe.session_ok st = true) :
  (forall address apiKey w,
      Observe.session_ok (Observe.in_world (constructor address apiKey) w) = true) /\
  Observe.session_ok (snd (testConnection network st)) = true /\
  Observe.session_ok (snd (checkForUpdates network refresh st)) = true /\
  Observe.session_ok (snd (emergencyStop network st)) = true /\
  Observe.session_ok (snd (restart network st)) = true /\
  Observe.session_ok (snd (firmwareRestart network st)) = true /\
  Observe.session_ok (snd (openSocketConnection accepts st)) = true /\
  (forall any : State,
      accepts (buildConnectionURL (this any) true ++ "/websocket") = true ->
      Observe.session_ok (snd (openSocketConnection accepts any)) = true).
Proof.
  assert (Hopen : forall any : State,
             accepts (buildConnectionURL (this any) true ++ "/websocket") = true ->
             Observe.session_ok (snd (openSocketConnection accepts any)) = true).
  { intros any Haccepts. rewrite openSocketConnection_run. cbn zeta.
    rewrite Haccepts.
    unfold Observe.session_ok. cbn [snd this world socket sockets add_socket].
    rewrite nth_error_app2 by lia. rewrite Nat.sub_diag. cbn [nth_error socket_url].
    apply String.eqb_refl. }
  assert (Hkept : Observe.session_ok (snd (openSocketConnection accepts st)) = true).
  { destruct (accepts (buildConnectionURL (this st) true ++ "/websocket")) eqn:E.
    - now apply Hopen.
    - rewrite openSocketConnection_run. cbn zeta. now rewrite E. }
  rewrite testConnection_run, checkForUpdates_run, emergencyStop_run,
    restart_run, firmwareRestart_run. cbn [snd].
  split; [reflexivity|].
  repeat split; try exact Hkept; try exact Hopen;
    rewrite <- Hsession; apply session_ok_rest;
    try reflexivity; apply after_command_sockets.
Qed.

(** ** Calls in sequence *)

(** X9. Requests leave in the order of the calls: an emergency stop, a
    restart and a firmware restart called one after the other send their
    three POSTs in that order, none of the calls throws, and the rejections
    left unhandled are, in some order, those of the requests that are
    rejected. *)
Theorem commands_in_call_order (st : State) :
  let stop := Spec.command_request (this st) "/printer/emergency_stop" in
  let again := Spec.command_request (this st) "/printer/restart" in
  let firmware := Spec.command_request (this st) "/printer/firmware_restart" in
  let rejection request :=
    match network request with Fulfilled _ => [] | Rejected e => [e] end in
  let run :=
    Observe.then_call (emergencyStop network)
      (Observe.then_call (restart network) (firmwareRestart network)) st in
  fst run = Return tt /\
  this (snd run) = this st /\
  requests (world (snd run)) = (requests (world st) ++ [stop; again; firmware])%list /\
  Permutation (unhandledRejections (world (snd run)))
    (unhandledRejections (world st)
     ++ rejection stop ++ rejection again ++ rejection firmware)%list.
Proof.
  cbn zeta. unfold Observe.then_call. cbn [bind Monad_M].
  rewrite emergencyStop_run, restart_run, firmwareRestart_run.
  cbn [fst snd].
  split; [reflexivity|]. split; [reflexivity|]. split.
  - rewrite !after_command_requests, <- !app_assoc. reflexivity.
  - rewrite !after_command_unhandled, <- !app_assoc. apply Permutation_refl.
Qed.

(** ** The update check at the edges *)

(** X10. When [result.version_info] is a number or a boolean, the update
    check does not fail: it is fulfilled with the empty sequence, as for an
    empty mapping. *)
Theorem checkForUpdates_keyless (refresh : option bool) (st : State)
    (response : Response) (versionInfo : value)
    (Hresponse : network (Spec.update_request (this st) refresh) = Fulfilled response)
    (Hinfo : Spec.version_info_of response = Some versionInfo)
    (Hkeyless : Observe.keyless versionInfo = true) :
  fst (checkForUpdates network refresh st) = Return (Fulfilled (VArr [])).
Proof.
  rewrite checkForUpdates_result, Hresponse.
  unfold Spec.expected_result. rewrite Hinfo.
  destruct versionInfo; try discriminate Hkeyless; reflexivity.
Qed.

(** X11. The update check keeps its failures to itself: whatever the
    network does, the call does not throw, its promise is fulfilled, no
    rejection is left unhandled, no socket is created, and exactly one
    request is sent. *)
Theorem checkForUpdates_contained (refresh : option bool) (st : State) :
  let run := checkForUpdates network refresh st in
  (exists v : value, fst run = Return (Fulfilled v)) /\
  unhandledRejections (world (snd run)) = unhandledRejections (world st) /\
  sockets (world (snd run)) = sockets (world st) /\
  List.length (requests (world (snd run))) = S (List.length (requests (world st))).
Proof.
  cbn zeta. split; [rewrite checkForUpdates_result; eauto|].
  rewrite checkForUpdates_run. cbn [snd world]. repeat split.
  cbn. rewrite length_app. cbn. lia.
Qed.

End MethodFacts.

Lemma methods_use_only_the_address_witness :
  let other :=
    {| this := {| connectionType := octoprint;
                  connectionAddress := "http://mainsail.local/";
                  connectionAPIKey := Some "secret";
                  socket := Some 3 |};
       world := world Spec.fresh |} in
  connectionAddress (this Spec.fresh) = connectionAddress (this other) /\
  world Spec.fresh = world other /\
  Observe.observation (checkForUpdates Spec.down (Some true) Spec.fresh)
  = Observe.observation (checkForUpdates Spec.down (Some true) other).
Proof.
  cbn zeta. split; [reflexivity|]. split; [reflexivity|].
  apply (methods_use_only_the_address Spec.down Observe.ws_accepts
           (Some true) Spec.fresh
           {| this := {| connectionType := octoprint;
                         connectionAddress := "http://mainsail.local/";
                         connectionAPIKey := Some "secret";
                         socket := Some 3 |};
              world := world Spec.fresh |});
    reflexivity.
Defined.

Lemma methods_ignore_trailing_slash_witness :
  let bare := Observe.in_world (constructor "http://mainsail.local" None)
                (world Spec.fresh) in
  JSString.endsWith (connectionAddress (this bare)) "/" = false /\
  connectionAddress (this Spec.fresh) = connectionAddress (this bare) ++ "/" /\
  world bare = world Spec.fresh /\
  Observe.observation (openSocketConnection Observe.ws_accepts bare)
  = Observe.observation (openSocketConnection Observe.ws_accepts Spec.fresh).
Proof.
  cbn zeta. split; [reflexivity|]. split; [reflexivity|]. split; [reflexivity|].
  apply (methods_ignore_trailing_slash Spec.down Observe.ws_accepts None
           (Observe.in_world (constructor "http://mainsail.local" None)
              (world Spec.fresh))
           Spec.fresh);
    reflexivity.
Defined.

Lemma session_ok_invariant_witness :
  Observe.session_ok (snd (openSocketConnection Observe.ws_accepts Spec.fresh))
  = true /\
  Observe.session_ok
    (snd (emergencyStop Spec.down
            (snd (openSocketConnection Observe.ws_accepts Spec.fresh))))
  = true.
Proof.
  split; [reflexivity|].
  exact (proj1 (proj2 (proj2 (proj2
           (session_ok_invariant Spec.down Observe.ws_accepts None
              (snd (openSocketConnection Observe.ws_accepts Spec.fresh))
              eq_refl))))).
Defined.

Lemma openSocketConnection_twice_orphans_witness :
  Observe.ws_accepts (buildConnectionURL (this Spec.fresh) true ++ "/websocket")
  = true /\
  socket
    (this (snd (openSocketConnection Observe.ws_accepts
                  (snd (openSocketConnection Observe.ws_accepts Spec.fresh)))))
  = Some 1.
Proof.
  split; [reflexivity|].
  apply (openSocketConnection_twice_orphans Observe.ws_accepts Spec.fresh).
  reflexivity.
Defined.

Lemma checkForUpdates_keyless_witness :
  let body := VObj [("result", VObj [("version_info", VNum 3)])] in
  Spec.answering body (Spec.update_request (this Spec.fresh) None)
  = Fulfilled {| status := 200; json := Fulfilled body |} /\
  Spec.version_info_of {| status := 200; json := Fulfilled body |} = Some (VNum 3) /\
  Observe.keyless (VNum 3) = true /\
  fst (checkForUpdates (Spec.answering body) None Spec.fresh)
  = Return (Fulfilled (VArr [])).
Proof.
  cbn zeta. split; [reflexivity|]. split; [reflexivity|]. split; [reflexivity|].
  apply (checkForUpdates_keyless
           (Spec.answering (VObj [("result", VObj [("version_info", VNum 3)])]))
           None Spec.fresh
           {| status := 200;
              json := Fulfilled (VObj [("result", VObj [("version_info", VNum 3)])]) |}
           (VNum 3));
    reflexivity.
Defined.

(** ** The first occurrence, wherever it is *)

Section FirstOccurrence.
Import JSString.

Lemma startsWith_app_long (p s t : string) :
  String.length p <= String.length s -> startsWith (s ++ t) p = startsWith s p.
Proof.
  revert s. induction p as [|a p IH]; intros s H.
  - now rewrite !startsWith_nil.
  - destruct s as [|b s]; cbn in H; [lia|].
    cbn [append startsWith]. rewrite IH by lia. reflexivity.
Qed.

Lemma length_append (s t : string) :
  String.length (s ++ t) = String.length s + String.length t.
Proof. induction s as [|a s IH]; cbn; [reflexivity | now rewrite IH]. Qed.

(** No occurrence of [http] starts inside [pre]: then the one that follows
    [pre] is the first, and the one replaced. *)
Lemma replace_first_http (pre rest : string) :
  Observe.includes (pre ++ "htt") "http" = false ->
  replace (pre ++ "http" ++ rest) "http" "ws" = pre ++ "ws" ++ rest.
Proof.
  induction pre as [|a pre IH]; intro H.
  - apply (replace_at_start "http" "ws" rest).
  - rewrite includes_unfold in H. apply orb_false_iff in H.
    destruct H as [Hhere Hlater].
    change (String a pre ++ "http" ++ rest)
      with (String a (pre ++ "http" ++ rest)).
    change (String a pre ++ "ws" ++ rest) with (String a (pre ++ "ws" ++ rest)).
    assert (Hsame : startsWith (String a (pre ++ "http" ++ rest)) "http"
                    = startsWith (String a pre ++ "htt") "http").
    { change (String a (pre ++ "http" ++ rest))
        with (String a (pre ++ "htt" ++ "p" ++ rest)).
      rewrite <- (append_assoc pre "htt" ("p" ++ rest)).
      change (String a ((pre ++ "htt") ++ "p" ++ rest))
        with ((String a pre ++ "htt") ++ "p" ++ rest).
      apply startsWith_app_long.
      change (String a pre ++ "htt") with (String a (pre ++ "htt")).
      cbn [String.length]. rewrite length_append. cbn. lia. }
    rewrite replace_unfold, Hsame, Hhere. now rewrite IH.
Qed.

End FirstOccurrence.

(** X12. The rewriting for the WebSocket is not tied to the start of the
    address: when the first [http] of the address comes after a prefix, that
    occurrence becomes [ws], the prefix and the rest are kept, and a trailing
    slash is stripped as usual. *)
Theorem build_websocket_first_occurrence (pre rest : string)
    (Hfirst : Observe.includes (pre ++ "htt") "http" = false) :
  Spec.build (pre ++ "http" ++ rest) true = Spec.build (pre ++ "ws" ++ rest) false.
Proof.
  unfold Spec.build, buildConnectionURL. cbn [connectionAddress constructor].
  now rewrite replace_first_http.
Qed.

Lemma build_websocket_first_occurrence_witness :
  Observe.includes ("HTTP://my-" ++ "htt") "http" = false /\
  Spec.build "HTTP://my-http-printer.local/" true = "HTTP://my-ws-printer.local".
Proof.
  split; [reflexivity|].
  exact (eq_trans
           (build_websocket_first_occurrence "HTTP://my-" "-printer.local/" eq_refl)
           eq_refl).
Defined.

(** ** The declarations of MaterialUsage *)

(** X13. The two declarations of [MaterialUsage] fit each other: the columns
    have distinct names and none is nullable; the one primary key is the
    auto-incremented [materialUsageId]; the foreign key of the association is
    a declared INTEGER column whose reference names the association's target
    key; and since that column cannot hold NULL, the association asks for
    neither SET NULL nor SET DEFAULT. *)
Theorem MaterialUsage_declarations_fit :
  let columns := fst Materials.initialize in
  let a := Materials.associate in
  NoDup (map fst columns) /\
  forallb (fun column => negb (Materials.allowNull (snd column))) columns = true /\
  map fst (filter (fun column => Materials.primaryKey (snd column)) columns)
  = ["materialUsageId"] /\
  map fst (filter (fun column => Materials.autoIncrement (snd column)) columns)
  = ["materialUsageId"] /\
  (exists options,
      find (fun column => String.eqb (fst column) (Materials.foreignKey a)) columns
      = Some (Materials.foreignKey a, options) /\
      Materials.type options = Materials.INTEGER /\
      option_map Materials.key (Materials.references options)
      = Some (Materials.targetKey a)) /\
  match Materials.onDelete a, Materials.onUpdate a with
  | Materials.SET_NULL, _ | Materials.SET_DEFAULT, _
  | _, Materials.SET_NULL | _, Materials.SET_DEFAULT => False
  | _, _ => True
  end.
Proof.
  cbn zeta. split.
  - cbn. repeat constructor; cbn; intuition discriminate.
  - repeat split. eexists. repeat split.
Qed.
